(** * useDApp: wallet connectors and account actions

    A shallow embedding of the TypeScript sources

      - [packages/core/src/actions/account/disconnect.ts]
      - [packages/core/src/actions/account/setLedgerAccountIndex.ts]
      - [getLedgerPublicKey] (account action)
      - [CasperLedgerConnector] (hardware wallet connector)
      - [CasperWalletConnector] (browser extension connector)
      - the test-suite of the [useSign] hook

    Asynchronous functions are modelled as computations in a state and
    exception monad: every [await] is a sequencing point, a rejected promise
    is a thrown value, and no other task is interleaved between two awaits
    of one invocation.  The external libraries (wallet extension provider,
    Ledger transport, Zondax Casper app, casper-js-sdk) are a record of
    oracles whose answers may depend on the whole history of calls. *)

From Stdlib Require Import ZArith List String Ascii Bool Lia.
From Stdlib.Strings Require Import Byte.
From stdpp Require Import gmap strings list fin_maps.

Local Open Scope string_scope.

(** ** JavaScript values that the sources manipulate *)

(** Thrown values.  [ConnectorNotFoundError] and [ConnectorNotLedgerError]
    are the error classes of this repository; [Error] is a plain
    [new Error(message)] built by the sources; [TypeError] is raised by the
    engine; [SdkError] is any value thrown by an external library. *)
Inductive Exn : Type :=
| ConnectorNotFoundError
| ConnectorNotLedgerError
| Error (message : string)
| TypeError (message : string)
| SdkError (name message : string).

(** What [getLedgerError] receives: a caught value cast to [Error], or the
    object literal [{ message, name: '' }] built by [sign]. *)
Inductive ErrorShape : Type :=
| Caught (e : Exn)
| Literal (name : string) (message : option string).

(** Outcome of running an async function to completion. *)
Inductive Completion (A : Type) : Type :=
| Return (a : A)
| Throw (e : Exn).
Arguments Return {A} a.
Arguments Throw {A} e.

(** The [Result] type of ts-results, as casper-js-sdk returns it. *)
Inductive TsResult (A : Type) : Type :=
| Ok (val : A)
| Err (msg : string).
Arguments Ok {A} val.
Arguments Err {A} msg.

(** Handles of objects owned by the external libraries. *)
Definition Transport := nat.
Definition Provider := nat.
Definition EventProvider := nat.

(** [new CasperApp(transport)] *)
Inductive CasperApp : Type := NewCasperApp (transport : Transport).

(** Arguments of [console.error]. *)
Inductive Logged : Type :=
| LogExn (e : Exn)
| LogStr (s : option string).

(** Every call that leaves this repository, and every console line. *)
Inductive Event : Type :=
| EvOptionsGetProvider
| EvOptionsGetEventProvider
| EvAddEventListener (ep : EventProvider) (name : string)
| EvRemoveEventListener (ep : EventProvider) (name : string)
| EvRequestConnection
| EvDisconnectFromSite
| EvProviderIsConnected
| EvProviderGetActivePublicKey
| EvProviderSignMessage (message key : string)
| EvProviderSign (key : string)
| EvTransportCreate
| EvTransportOn (name : string)
| EvTransportClose
| EvGetAddressAndPubKey (path : string)
| EvAppSignMessage (path : string) (payload : list byte)
| EvAppSign (path : string) (payload : list byte)
| EvForeignDisconnect (id : string)
| EvConsoleError (v : Logged).

(** The log is kept newest first. *)
Definition Trace := list Event.

(** What an external library does when called: it answers, or it throws a
    value of its own.  The libraries do not know the error classes of this
    repository, so what they throw is always an [SdkError]. *)
Inductive Answer (A : Type) : Type :=
| Resolves (a : A)
| Rejects (name message : string).
Arguments Resolves {A} a.
Arguments Rejects {A} name message.

Definition completion_of {A} (r : Answer A) : Completion A :=
  match r with
  | Resolves a => Return a
  | Rejects name message => Throw (SdkError name message)
  end.

(** An external call: its answer may depend on everything that happened
    before it. *)
Definition Oracle (A : Type) := Trace -> Answer A.

(** *** Truthiness *)

(** [!!s] for [s : string | undefined] *)
Definition truthy_str (s : option string) : bool :=
  match s with
  | Some EmptyString => false
  | Some _ => true
  | None => false
  end.

(** [s || d] for [s : string | undefined] *)
Definition or_str (s : option string) (d : string) : string :=
  match s with
  | Some EmptyString => d
  | Some v => v
  | None => d
  end.

(** [!!b] for [b : Buffer | undefined]: every object is truthy, the empty
    buffer included. *)
Definition truthy_buf (b : option (list byte)) : bool :=
  match b with
  | Some _ => true
  | None => false
  end.

(** *** [Buffer.prototype.toString('hex')] *)

Definition hex_digit (n : N) : ascii :=
  match n with
  | 0%N => "0" | 1%N => "1" | 2%N => "2" | 3%N => "3"
  | 4%N => "4" | 5%N => "5" | 6%N => "6" | 7%N => "7"
  | 8%N => "8" | 9%N => "9" | 10%N => "a" | 11%N => "b"
  | 12%N => "c" | 13%N => "d" | 14%N => "e" | _ => "f"
  end%char.

Definition hex_of_byte (b : byte) : string :=
  let n := Byte.to_N b in
  String (hex_digit (N.div n 16)) (String (hex_digit (N.modulo n 16)) EmptyString).

Fixpoint toString_hex (buf : list byte) : string :=
  match buf with
  | nil => EmptyString
  | b :: rest => String.append (hex_of_byte b) (toString_hex rest)
  end.

(** [Buffer.from(s, 'utf8')]: a Rocq string already is its byte sequence. *)
Definition Buffer_from_utf8 (s : string) : list byte := list_byte_of_string s.

(** ** The state and exception monad *)

Definition M (St A : Type) : Type := St -> Completion A * St.

Definition ret {St A} (a : A) : M St A := fun s => (Return a, s).

Definition throw {St A} (e : Exn) : M St A := fun s => (Throw e, s).

Definition bind {St A B} (c : M St A) (k : A -> M St B) : M St B :=
  fun s =>
    match c s with
    | (Return a, s') => k a s'
    | (Throw e, s') => (Throw e, s')
    end.

(** [try { body } catch (error) { handler error }]: the handler runs in the
    state the body left behind. *)
Definition try_catch {St A} (body : M St A) (handler : Exn -> M St A) : M St A :=
  fun s =>
    match body s with
    | (Return a, s') => (Return a, s')
    | (Throw e, s') => handler e s'
    end.

Notation "'let*' x ':=' c 'in' k" := (bind c (fun x => k))
  (at level 10, x name, c at level 100, k at level 200).
Notation "c ';;;' k" := (bind c (fun _ => k))
  (at level 100, k at level 200, right associativity).

(** States that carry the log of external calls. *)
Class HasTrace (St : Type) : Type := {
  get_trace : St -> Trace;
  set_trace : Trace -> St -> St
}.

(** Perform one external call: ask the oracle, with the history so far, and
    record the call. *)
Definition sdk_call {St} `{HasTrace St} {A} (ev : Event) (f : Oracle A) : M St A :=
  fun s => (completion_of (f (get_trace s)), set_trace (ev :: get_trace s) s).

(** An external effect that cannot fail (listener registration). *)
Definition emit {St} `{HasTrace St} (ev : Event) : M St unit :=
  fun s => (Return tt, set_trace (ev :: get_trace s) s).

(** [console.error(v)] *)
Definition console_error {St} `{HasTrace St} (v : Logged) : M St unit :=
  emit (EvConsoleError v).

(** A pure library function that may throw. *)
Definition lift_answer {St A} (r : Answer A) : M St A := fun s => (completion_of r, s).

(** [r.unwrap()] of ts-results: throws when [r] is an [Err]. *)
Definition unwrap {St A} (r : TsResult A) : M St A :=
  match r with
  | Ok v => ret v
  | Err msg => throw (SdkError "Error" (String.append "Tried to unwrap Error: " msg))
  end.

(** An instance together with the log: the state a connector method runs in. *)
Record Ctx (I : Type) : Type := MkCtx { self : I; log : Trace }.
Arguments MkCtx {I} self log.
Arguments self {I} c.
Arguments log {I} c.

#[global] Instance Ctx_HasTrace (I : Type) : HasTrace (Ctx I) := {
  get_trace := log;
  set_trace := fun t c => MkCtx (self c) t
}.

(** Read and write [this]. *)
Definition this {I} : M (Ctx I) I := fun c => (Return (self c), c).
Definition set_this {I} (f : I -> I) : M (Ctx I) unit :=
  fun c => (Return tt, MkCtx (f (self c)) (log c)).

(** ** External libraries *)

(** [signMessage] and [sign] answers of the wallet extension. *)
Record SignatureResponse : Type := {
  cancelled : bool;
  signatureHex : option string;
  signature : option (list byte)
}.

(** Answers of the Zondax Casper app.  [ra_errorMessage] and
    [ra_returnCode] are the [errorMessage] and [returnCode] of a
    [ResponseAddress]. *)
Record ResponseAddress : Type := {
  publicKey : option (list byte);
  ra_errorMessage : option string;
  ra_returnCode : Z
}.

Record ResponseSign : Type := {
  signatureRS : option (list byte);
  signatureRSV : option (list byte);
  errorMessage : option string;
  returnCode : Z
}.

Record Sdk : Type := {
  (* casper-js-sdk: opaque data and pure functions *)
  Json : Type;
  Deploy : Type;
  CLPublicKey : Type;
  JSON_stringify : Json -> string;
  deployFromJson : Json -> TsResult Deploy;
  deployToJson : Deploy -> Json;
  deployToBytes : Deploy -> list byte;
  setSignature : Deploy -> option (list byte) -> CLPublicKey -> Deploy;
  validateDeploy : Deploy -> TsResult Deploy;
  CLPublicKey_fromHex : string -> Answer CLPublicKey;
  (* the functions passed as connector options *)
  options_getProvider : Oracle (option Provider);
  options_getEventProvider : Oracle (option EventProvider);
  (* CasperWalletProvider *)
  requestConnection : Provider -> Oracle bool;
  disconnectFromSite : Provider -> Oracle bool;
  provider_isConnected : Provider -> Oracle bool;
  provider_getActivePublicKey : Provider -> Oracle (option string);
  provider_signMessage : Provider -> string -> string -> Oracle SignatureResponse;
  provider_sign : Provider -> string -> string -> Oracle SignatureResponse;
  (* TransportWebUSB and CasperApp *)
  TransportWebUSB_create : Oracle Transport;
  transport_on : Transport -> string -> Oracle unit;
  transport_close : Transport -> Oracle unit;
  getAddressAndPubKey : CasperApp -> string -> Oracle ResponseAddress;
  app_signMessage : CasperApp -> string -> list byte -> Oracle (option ResponseSign);
  app_sign : CasperApp -> string -> list byte -> Oracle ResponseSign;
  (* connectors of the other back ends *)
  foreign_disconnect : string -> Oracle unit
}.

(** The helpers of [../utils] and [../enums] that the connectors import. *)
Record Utils : Type := {
  getLedgerError : ErrorShape -> option Z -> string;
  getLedgerPath : string -> string;
  CONNECT_ERROR_MESSAGE : string;
  SECP256K1 : string
}.

(** ** CasperLedgerConnector *)

Module Ledger.

(** The instance fields of the class. *)
Record Inst : Type := MkInst {
  transport : option Transport;
  casperApp : option CasperApp;
  accountIndex : option string;
  eventProvider : option EventProvider;
  (* whether [options.getEventProvider] is defined *)
  has_getEventProvider : bool
}.

(** [public readonly id: string = 'ledger'] *)
Definition id : string := "ledger".

(** A freshly constructed connector: the constructor assigns no field. *)
Definition new (has_gep : bool) : Inst :=
  MkInst None None None None has_gep.

Definition set_transport (t : Transport) (i : Inst) : Inst :=
  MkInst (Some t) (casperApp i) (accountIndex i) (eventProvider i) (has_getEventProvider i).

Definition set_casperApp (a : CasperApp) (i : Inst) : Inst :=
  MkInst (transport i) (Some a) (accountIndex i) (eventProvider i) (has_getEventProvider i).

Definition set_accountIndex (x : string) (i : Inst) : Inst :=
  MkInst (transport i) (casperApp i) (Some x) (eventProvider i) (has_getEventProvider i).

Definition set_eventProvider (e : EventProvider) (i : Inst) : Inst :=
  MkInst (transport i) (casperApp i) (accountIndex i) (Some e) (has_getEventProvider i).

(** ['Casper Message:\n'] *)
Definition ledgerPrefix : string :=
  String.append "Casper Message:" (String (ascii_of_nat 10) EmptyString).

Section Methods.
Context (utils : Utils) (sdk : Sdk).

Definition connect : M (Ctx Inst) unit :=
  try_catch
    (let* t := sdk_call EvTransportCreate (TransportWebUSB_create sdk) in
     set_this (set_transport t) ;;;
     set_this (set_casperApp (NewCasperApp t)) ;;;
     sdk_call (EvTransportOn "disconnect") (transport_on sdk t "disconnect"))
    (fun error => throw (Error (getLedgerError utils (Caught error) None))).

Definition getProvider : M (Ctx Inst) CasperApp :=
  connect ;;;
  let* i := this in
  match casperApp i with
  | None => throw ConnectorNotFoundError
  | Some app => ret app
  end.

Definition getEventProvider : M (Ctx Inst) EventProvider :=
  let* i := this in
  let* ep := (if has_getEventProvider i
              then sdk_call EvOptionsGetEventProvider (options_getEventProvider sdk)
              else ret None) in
  match ep with
  | None => throw ConnectorNotFoundError
  | Some e => set_this (set_eventProvider e) ;;; ret e
  end.

Definition setAccountIndex (index : string) : M (Ctx Inst) unit :=
  set_this (set_accountIndex index).

(** Declared [string | undefined]; [None] is [undefined]. *)
Definition getAccountIndex : M (Ctx Inst) (option string) :=
  let* i := this in
  ret (Some (or_str (accountIndex i) "0")).

(** [await this.transport.close()] *)
Definition close_transport : M (Ctx Inst) unit :=
  let* i := this in
  match transport i with
  | Some t => sdk_call EvTransportClose (transport_close sdk t)
  | None => throw (TypeError "Cannot read properties of undefined (reading 'close')")
  end.

Definition getPublicKey (index : string) : M (Ctx Inst) string :=
  let* app := getProvider in
  (* [if (!casperApp)] cannot fire: an object is truthy *)
  let* publicKey :=
    try_catch
      (let path := getLedgerPath utils index in
       let* value := sdk_call (EvGetAddressAndPubKey path) (getAddressAndPubKey sdk app path) in
       match ra_errorMessage value with
       | Some msg =>
           if truthy_str (Some msg) && negb (String.eqb msg "No errors")
           then throw (Error msg)
           else ret (publicKey value)
       | None => ret (publicKey value)
       end)
      (fun error =>
         close_transport ;;;
         throw (Error (getLedgerError utils (Caught error) None))) in
  close_transport ;;;
  match publicKey with
  | None => throw (Error (CONNECT_ERROR_MESSAGE utils))
  | Some pk => ret (String.append (SECP256K1 utils) (toString_hex pk))
  end.

Definition getActivePublicKey : M (Ctx Inst) string :=
  let* i := this in
  getPublicKey (or_str (accountIndex i) "0").

Definition isConnected : M (Ctx Inst) bool :=
  let* key := getActivePublicKey in
  ret (truthy_str (Some key)).

Definition disconnect : M (Ctx Inst) unit := ret tt.

(** [index] is the destructured option with its default ['0']. *)
Definition signMessage (message : string) (_signingPublicKeyHex : string)
    (index_opt : option string) : M (Ctx Inst) string :=
  let index := default "0" index_opt in
  let* app := getProvider in
  let* i := this in
  let path := getLedgerPath utils (or_str (accountIndex i) index) in
  let payload := Buffer_from_utf8 (String.append ledgerPrefix message) in
  let* signatureResponse :=
    sdk_call (EvAppSignMessage path payload) (app_signMessage sdk app path payload) in
  match signatureResponse with
  | None =>
      close_transport ;;;
      throw (Error "Error on sign message with ledger.")
  | Some r =>
      close_transport ;;;
      match signatureRSV r with
      | Some rsv => ret (toString_hex rsv)
      | None => throw (TypeError "The first argument must be one of type string, Buffer, ArrayBuffer, Array, or Array-like Object. Received type undefined")
      end
  end.

Definition sign (deploy : Json sdk) (signingPublicKeyHex : string)
    (_targetPublicKeyHex : string) (index_opt : option string)
    : M (Ctx Inst) (Json sdk) :=
  let index := default "0" index_opt in
  let* app := getProvider in
  let deployCasper := deployFromJson sdk deploy in
  let* deployJson := unwrap deployCasper in
  let* i := this in
  let path := getLedgerPath utils (or_str (accountIndex i) index) in
  let payload := deployToBytes sdk deployJson in
  let* responseDeploy := sdk_call (EvAppSign path payload) (app_sign sdk app path payload) in
  match signatureRS responseDeploy with
  | None =>
      console_error (LogStr (errorMessage responseDeploy)) ;;;
      close_transport ;;;
      throw (Error (getLedgerError utils
                      (Literal "" (errorMessage responseDeploy))
                      (Some (returnCode responseDeploy))))
  | Some rs =>
      let* pk := lift_answer (CLPublicKey_fromHex sdk signingPublicKeyHex) in
      let signedDeploy := setSignature sdk deployJson (Some rs) pk in
      match validateDeploy sdk signedDeploy with
      | Ok val =>
          close_transport ;;;
          ret (deployToJson sdk val)
      | Err _ =>
          close_transport ;;;
          throw (Error "Error on sign deploy with ledger.")
      end
  end.

End Methods.

End Ledger.

(** ** CasperWalletConnector *)

Module Wallet.

Record Inst : Type := MkInst {
  isReady : bool;
  provider : option Provider;
  eventProvider : option EventProvider;
  (* whether [options.getProvider] and [options.getEventProvider] are defined *)
  has_getProvider : bool;
  has_getEventProvider : bool
}.

(** [public readonly id: string = 'casperWallet'] *)
Definition id : string := "casperWallet".

Definition set_provider (p : Provider) (i : Inst) : Inst :=
  MkInst (isReady i) (Some p) (eventProvider i) (has_getProvider i) (has_getEventProvider i).

Definition set_isReady (b : bool) (i : Inst) : Inst :=
  MkInst b (provider i) (eventProvider i) (has_getProvider i) (has_getEventProvider i).

Definition set_eventProvider (e : EventProvider) (i : Inst) : Inst :=
  MkInst (isReady i) (provider i) (Some e) (has_getProvider i) (has_getEventProvider i).

Section Methods.
Context (sdk : Sdk).

Definition getProvider : M (Ctx Inst) Provider :=
  let* i := this in
  let* p := (if has_getProvider i
             then sdk_call EvOptionsGetProvider (options_getProvider sdk)
             else ret None) in
  match p with
  | None => throw ConnectorNotFoundError
  | Some p =>
      set_this (set_provider p) ;;;
      set_this (set_isReady true) ;;;
      ret p
  end.

Definition getEventProvider : M (Ctx Inst) EventProvider :=
  let* i := this in
  let* ep := (if has_getEventProvider i
              then sdk_call EvOptionsGetEventProvider (options_getEventProvider sdk)
              else ret None) in
  match ep with
  | None => throw ConnectorNotFoundError
  | Some e => set_this (set_eventProvider e) ;;; ret e
  end.

Definition isConnected : M (Ctx Inst) bool :=
  try_catch
    (let* p := getProvider in
     sdk_call EvProviderIsConnected (provider_isConnected sdk p))
    (fun _ => ret false).

Definition disconnect : M (Ctx Inst) unit :=
  let* p := getProvider in
  let* ep := getEventProvider in
  emit (EvRemoveEventListener ep "casper-wallet:activeKeyChanged") ;;;
  emit (EvRemoveEventListener ep "casper-wallet:disconnected") ;;;
  emit (EvRemoveEventListener ep "casper-wallet:connected") ;;;
  emit (EvRemoveEventListener ep "casper-wallet:unlocked") ;;;
  sdk_call EvDisconnectFromSite (disconnectFromSite sdk p) ;;;
  ret tt.

Definition connect : M (Ctx Inst) unit :=
  let* p := getProvider in
  let* ep := getEventProvider in
  emit (EvAddEventListener ep "casper-wallet:activeKeyChanged") ;;;
  emit (EvAddEventListener ep "casper-wallet:disconnected") ;;;
  emit (EvAddEventListener ep "casper-wallet:connected") ;;;
  emit (EvAddEventListener ep "casper-wallet:unlocked") ;;;
  sdk_call EvRequestConnection (requestConnection sdk p) ;;;
  ret tt.

Definition getActivePublicKey : M (Ctx Inst) (option string) :=
  let* p := getProvider in
  sdk_call EvProviderGetActivePublicKey (provider_getActivePublicKey sdk p).

(** [None] is [undefined]. *)
Definition signMessage (message signingPublicKeyHex : string)
    : M (Ctx Inst) (option string) :=
  let* p := getProvider in
  let* signatureResponse :=
    sdk_call (EvProviderSignMessage message signingPublicKeyHex)
             (provider_signMessage sdk p message signingPublicKeyHex) in
  if cancelled signatureResponse
  then ret None
  else ret (signatureHex signatureResponse).

Definition sign (deploy : Json sdk) (signingPublicKeyHex : string)
    : M (Ctx Inst) (option (Json sdk)) :=
  let* p := getProvider in
  let deployJson := deployFromJson sdk deploy in
  let* res :=
    sdk_call (EvProviderSign signingPublicKeyHex)
             (provider_sign sdk p (JSON_stringify sdk deploy) signingPublicKeyHex) in
  if cancelled res
  then ret None
  else
    let* d := unwrap deployJson in
    let* pk := lift_answer (CLPublicKey_fromHex sdk signingPublicKeyHex) in
    let signedDeploy := setSignature sdk d (signature res) pk in
    ret (Some (deployToJson sdk signedDeploy)).

End Methods.

End Wallet.

(** ** The client and its state *)

(** A reference to a connector object. *)
Definition Ref := nat.

(** The connector objects: the two classes above, and the connectors of the
    other back ends, of which only the [id] and the outcome of [disconnect]
    matter here. *)
Inductive ConnObj : Type :=
| LedgerConnector (i : Ledger.Inst)
| WalletConnector (i : Wallet.Inst)
| ForeignConnector (id : string).

Definition connector_id (o : ConnObj) : string :=
  match o with
  | LedgerConnector _ => Ledger.id
  | WalletConnector _ => Wallet.id
  | ForeignConnector id => id
  end.

(** Modelled from the spec: the status enum of the client state.  The
    sources name one member, [StatusEnum.DISCONNECTED]. *)
Inductive StatusEnum : Type :=
| DISCONNECTED
| OtherStatus (name : string).

(** Property values of the [data] object. *)
Inductive JsVal : Type :=
| VUndef
| VStr (s : string)
| VBool (b : bool)
| VNum (n : Z).

(** Modelled from the spec: the client state object, "active public key,
    connector reference, status enum".  [data] is the object holding
    [activeKey] and [ledgerAccountIndex]; [others] stands for the remaining
    own properties of the state. *)
Record StateParams : Type := MkState {
  connector : option Ref;
  status : option StatusEnum;
  data : option (gmap string JsVal);
  others : gmap string JsVal
}.

(** Property read [o.k] on an optional object. *)
Definition prop (o : option (gmap string JsVal)) (k : string) : JsVal :=
  match o with
  | Some m => default VUndef (m !! k)
  | None => VUndef
  end.

(** [{ ...o }] for [o : object | undefined] *)
Definition spread (o : option (gmap string JsVal)) : gmap string JsVal :=
  default ∅ o.

(** Everything the actions can touch: the client state, the connector
    objects, and the log. *)
Record World : Type := MkWorld {
  store : StateParams;
  heap : Ref -> ConnObj;
  trace : Trace
}.

#[global] Instance World_HasTrace : HasTrace World := {
  get_trace := trace;
  set_trace := fun t w => MkWorld (store w) (heap w) t
}.

Definition heap_set (r : Ref) (o : ConnObj) (h : Ref -> ConnObj) : Ref -> ConnObj :=
  fun r' => if Nat.eqb r' r then o else h r'.

(** Run a method of the Ledger connector at [r].  On an object of another
    class the method does not exist. *)
Definition on_ledger {A} (r : Ref) (method : string) (m : M (Ctx Ledger.Inst) A) : M World A :=
  fun w =>
    match heap w r with
    | LedgerConnector i =>
        match m (MkCtx i (trace w)) with
        | (c, cx) => (c, MkWorld (store w) (heap_set r (LedgerConnector (self cx)) (heap w)) (log cx))
        end
    | _ => (Throw (TypeError (String.append method " is not a function")), w)
    end.

Definition on_wallet {A} (r : Ref) (m : M (Ctx Wallet.Inst) A) : M World A :=
  fun w =>
    match heap w r with
    | WalletConnector i =>
        match m (MkCtx i (trace w)) with
        | (c, cx) => (c, MkWorld (store w) (heap_set r (WalletConnector (self cx)) (heap w)) (log cx))
        end
    | _ => (Throw (TypeError "not a CasperWalletConnector"), w)
    end.

(** Modelled from the spec: [client.connector] reads the connector
    reference of the state. *)
Definition client_connector : M World (option Ref) :=
  fun w => (Return (connector (store w)), w).

(** Modelled from the spec: [client.setState(updater)] overwrites the state
    object with [updater oldState], synchronously. *)
Definition setState (updater : StateParams -> StateParams) : M World unit :=
  fun w => (Return tt, MkWorld (updater (store w)) (heap w) (trace w)).

(** [connector.id] *)
Definition read_id (r : Ref) : M World string :=
  fun w => (Return (connector_id (heap w r)), w).

(** ** Account actions *)

Module Account.

Section Actions.
Context (utils : Utils) (sdk : Sdk).

(** [connector.disconnect()], dispatched on the class of the object. *)
Definition Connector_disconnect (r : Ref) : M World unit :=
  fun w =>
    match heap w r with
    | LedgerConnector _ => on_ledger r "disconnect" Ledger.disconnect w
    | WalletConnector _ => on_wallet r (Wallet.disconnect sdk) w
    | ForeignConnector id =>
        sdk_call (EvForeignDisconnect id) (foreign_disconnect sdk id) w
    end.

(** The updater that [disconnect] passes to [setState]. *)
Definition disconnect_updater (oldState : StateParams) : StateParams :=
  MkState (connector oldState)
          (Some DISCONNECTED)
          (Some (<["activeKey" := VUndef]> (spread (data oldState))))
          (others oldState).

(** The [try] block of [disconnect]. *)
Definition disconnect_try : M World unit :=
  let* c := client_connector in
  match c with
  | Some r => Connector_disconnect r
  | None => ret tt
  end ;;;
  setState disconnect_updater.

Definition disconnect : M World unit :=
  try_catch disconnect_try
            (fun error => console_error (LogExn error)).

(** The updater that [setLedgerAccountIndex] passes to [setState]. *)
Definition ledger_updater (index publicKey : string) (oldState : StateParams)
    : StateParams :=
  MkState (connector oldState)
          (status oldState)
          (Some (<["activeKey" := VStr publicKey]>
                   (<["ledgerAccountIndex" := VStr index]> (spread (data oldState)))))
          (others oldState).

(** The guard shared by the two Ledger actions:
    [if (connector && connector.id !== 'ledger') throw ...] *)
Definition require_ledger (c : option Ref) : M World unit :=
  match c with
  | Some r =>
      let* id := read_id r in
      if negb (String.eqb id "ledger")
      then throw ConnectorNotLedgerError
      else ret tt
  | None => ret tt
  end.

(** The [try] block of [setLedgerAccountIndex]. *)
Definition setLedgerAccountIndex_try (index : string) : M World unit :=
  let* c := client_connector in
  require_ledger c ;;;
  let* publicKey :=
    match c with
    | Some r => on_ledger r "connector.getPublicKey" (Ledger.getPublicKey utils sdk index)
    | None => throw (TypeError "Cannot read properties of undefined (reading 'getPublicKey')")
    end in
  setState (ledger_updater index publicKey) ;;;
  match c with
  | Some r => on_ledger r "connector.setAccountIndex" (Ledger.setAccountIndex index)
  | None => throw (TypeError "Cannot read properties of undefined (reading 'setAccountIndex')")
  end.

(** [index_opt] is the destructured parameter before its default. *)
Definition setLedgerAccountIndex (index_opt : option string) : M World unit :=
  let index := default "0" index_opt in
  try_catch (setLedgerAccountIndex_try index)
            (fun error => console_error (LogExn error) ;;; throw error).

(** The [try] block of [getLedgerPublicKey]; [None] is [undefined]. *)
Definition getLedgerPublicKey_try (index : string) : M World (option string) :=
  let* c := client_connector in
  require_ledger c ;;;
  match c with
  | Some r =>
      let* publicKey :=
        on_ledger r "connector.getPublicKey" (Ledger.getPublicKey utils sdk index) in
      ret (Some publicKey)
  | None => ret None
  end.

Definition getLedgerPublicKey (index_opt : option string) : M World (option string) :=
  let index := default "0" index_opt in
  try_catch (getLedgerPublicKey_try index)
            (fun error => console_error (LogExn error) ;;; throw error).

End Actions.

End Account.

(** ** The [useSign] hook *)

Module UseSign.

(** A [deploy] argument as the test-suite passes it: a string or an
    object literal. *)
Inductive DeployArg : Type :=
| DeployString (s : string)
| DeployObject (fields : list (string * string)).

Record SignParams : Type := MkParams {
  deploy : option DeployArg;
  signingPublicKey : option string;
  targetPublicKeyHex : option string
}.

(** [!!deploy]: the empty object is truthy, the empty string is not. *)
Definition truthy_deploy (d : option DeployArg) : bool :=
  match d with
  | Some (DeployString s) => truthy_str (Some s)
  | Some (DeployObject _) => true
  | None => false
  end.

(** Modelled from the spec: the validation of the sign operation of
    [useSign], whose source is not part of the sources at hand;
    "validation rejects empty deploy/key fields", with the messages and
    the precedence that the test-suite of the hook expects. *)
Definition validate (p : SignParams) : Completion unit :=
  if negb (truthy_deploy (deploy p))
  then Throw (Error "Deploy must be a non-empty")
  else if negb (truthy_str (signingPublicKey p))
  then Throw (Error "signingPublicKey must be a non-empty string")
  else if negb (truthy_str (targetPublicKeyHex p))
  then Throw (Error "targetPublicKeyHex must be a non-empty string")
  else Return tt.

(** Modelled from the spec: [signAsync(args)] of the hook.  Arguments given
    at the call replace the ones given to the hook; validation comes
    before the sign action [act] of the core package. *)
Definition signAsync {A} (act : SignParams -> Completion A)
    (hook : SignParams) (args : option SignParams) : Completion A :=
  let p := default hook args in
  match validate p with
  | Throw e => Throw e
  | Return _ => act p
  end.

End UseSign.

(** ** Concrete environments *)

Module Samples.

Import ListNotations.

Definition utils : Utils := {|
  getLedgerError := fun shape _ =>
    match shape with
    | Caught (Error m) => m
    | Caught (SdkError _ m) => m
    | Literal _ (Some m) => m
    | _ => "Unknown error"
    end;
  getLedgerPath := fun index => String.append "m/44'/506'/0'/0/" index;
  CONNECT_ERROR_MESSAGE := "Unable to connect to Ledger device";
  SECP256K1 := "02"
|}.

(** An environment in which every call succeeds, except for the oracles
    given as arguments. *)
Definition sdk_with
    (create : Oracle Transport)
    (address : Oracle ResponseAddress)
    (wallet_sign : Oracle SignatureResponse)
    (site_disconnect : Oracle bool) : Sdk := {|
  Json := string;
  Deploy := string;
  CLPublicKey := string;
  JSON_stringify := fun j => j;
  deployFromJson := fun j => Ok j;
  deployToJson := fun d => d;
  deployToBytes := fun d => list_byte_of_string d;
  setSignature := fun d _ _ => String.append d "+signed";
  validateDeploy := fun d => Ok d;
  CLPublicKey_fromHex := fun h => Resolves h;
  options_getProvider := fun _ => Resolves (Some 1);
  options_getEventProvider := fun _ => Resolves (Some 2);
  requestConnection := fun _ _ => Resolves true;
  disconnectFromSite := fun _ => site_disconnect;
  provider_isConnected := fun _ _ => Resolves true;
  provider_getActivePublicKey := fun _ _ => Resolves (Some "01aa");
  provider_signMessage := fun _ _ _ => wallet_sign;
  provider_sign := fun _ _ _ => wallet_sign;
  TransportWebUSB_create := create;
  transport_on := fun _ _ _ => Resolves tt;
  transport_close := fun _ _ => Resolves tt;
  getAddressAndPubKey := fun _ _ => address;
  app_signMessage := fun _ _ _ _ =>
    Resolves (Some {| signatureRS := Some [x01]; signatureRSV := Some [x01; x1b];
                    errorMessage := Some "No errors"; returnCode := 36864 |});
  app_sign := fun _ _ _ _ =>
    Resolves {| signatureRS := Some [x01]; signatureRSV := Some [x01; x1b];
              errorMessage := Some "No errors"; returnCode := 36864 |};
  foreign_disconnect := fun _ _ => Resolves tt
|}.

Definition address_ok : Oracle ResponseAddress := fun _ =>
  Resolves {| publicKey := Some [x03; xa1; x0f];
            ra_errorMessage := Some "No errors"; ra_returnCode := 36864 |}.

(** The device answers with a buffer of length zero. *)
Definition address_empty : Oracle ResponseAddress := fun _ =>
  Resolves {| publicKey := Some [];
            ra_errorMessage := Some "No errors"; ra_returnCode := 36864 |}.

(** The device answers without a key and without an error message. *)
Definition address_missing : Oracle ResponseAddress := fun _ =>
  Resolves {| publicKey := None; ra_errorMessage := None; ra_returnCode := 36864 |}.

Definition signed : Oracle SignatureResponse := fun _ =>
  Resolves {| cancelled := false; signatureHex := Some "0a0b"; signature := Some [x0a; x0b] |}.

Definition user_cancelled : Oracle SignatureResponse := fun _ =>
  Resolves {| cancelled := true; signatureHex := None; signature := None |}.

Definition create_ok : Oracle Transport := fun _ => Resolves 7.

Definition create_denied : Oracle Transport := fun _ =>
  Rejects "TransportOpenUserCancelled" "Access denied to use Ledger device".

Definition site_ok : Oracle bool := fun _ => Resolves true.

Definition site_fails : Oracle bool := fun _ =>
  Rejects "Error" "Extension context invalidated".

Definition sdk_ok : Sdk := sdk_with create_ok address_ok signed site_ok.

Definition ledger0 : Ctx Ledger.Inst := MkCtx (Ledger.new true) [].

Definition wallet0 : Ctx Wallet.Inst :=
  MkCtx (Wallet.MkInst true None None true true) [].

Definition state0 (c : option Ref) : StateParams :=
  MkState c (Some (OtherStatus "connected"))
          (Some (<["ledgerAccountIndex" := VStr "3"]> {["activeKey" := VStr "01aa"]}))
          {["autoConnect" := VBool true]}.

(** A world whose client points at connector [0]. *)
Definition world_of (o : ConnObj) : World :=
  MkWorld (state0 (Some 0)) (fun _ => o) [].

Definition world_no_connector : World :=
  MkWorld (state0 None) (fun _ => ForeignConnector "none") [].

End Samples.

(** ** Vocabulary of the properties *)

(** The history at which the device is asked for its key: the transport
    has been created and the disconnect listener installed. *)
Definition asked_at (cx : Ctx Ledger.Inst) : Trace :=
  EvTransportOn "disconnect" :: EvTransportCreate :: log cx.

(** The calls into the external libraries, without their arguments.
    Listener registrations on the window and console lines are not calls
    into a library. *)
Inductive Call : Type :=
| CallOptionsGetProvider
| CallOptionsGetEventProvider
| CallRequestConnection
| CallDisconnectFromSite
| CallProviderIsConnected
| CallProviderGetActivePublicKey
| CallProviderSignMessage
| CallProviderSign
| CallTransportCreate
| CallTransportOn
| CallTransportClose
| CallGetAddressAndPubKey
| CallAppSignMessage
| CallAppSign
| CallForeignDisconnect.

#[global] Instance Call_eq_dec : EqDecision Call.
Proof. solve_decision. Defined.

Definition call_of (e : Event) : option Call :=
  match e with
  | EvOptionsGetProvider => Some CallOptionsGetProvider
  | EvOptionsGetEventProvider => Some CallOptionsGetEventProvider
  | EvAddEventListener _ _ => None
  | EvRemoveEventListener _ _ => None
  | EvRequestConnection => Some CallRequestConnection
  | EvDisconnectFromSite => Some CallDisconnectFromSite
  | EvProviderIsConnected => Some CallProviderIsConnected
  | EvProviderGetActivePublicKey => Some CallProviderGetActivePublicKey
  | EvProviderSignMessage _ _ => Some CallProviderSignMessage
  | EvProviderSign _ => Some CallProviderSign
  | EvTransportCreate => Some CallTransportCreate
  | EvTransportOn _ => Some CallTransportOn
  | EvTransportClose => Some CallTransportClose
  | EvGetAddressAndPubKey _ => Some CallGetAddressAndPubKey
  | EvAppSignMessage _ _ => Some CallAppSignMessage
  | EvAppSign _ _ => Some CallAppSign
  | EvForeignDisconnect _ => Some CallForeignDisconnect
  | EvConsoleError _ => None
  end.

(** How many times the call [k] occurs in a stretch of the log. *)
Definition calls (k : Call) (t : Trace) : nat :=
  length (filter (fun e => call_of e = Some k) t).

(** The connector operations and, for each, the calls it makes, in order,
    when none of them fails. *)
Inductive Operation : Type :=
| WalletConnect
| WalletDisconnect
| WalletSignMessage
| WalletSign
| LedgerConnect
| LedgerDisconnect
| LedgerSignMessage
| LedgerSign.

Definition script (op : Operation) : list Call :=
  match op with
  | WalletConnect =>
      [CallOptionsGetProvider; CallOptionsGetEventProvider; CallRequestConnection]
  | WalletDisconnect =>
      [CallOptionsGetProvider; CallOptionsGetEventProvider; CallDisconnectFromSite]
  | WalletSignMessage => [CallOptionsGetProvider; CallProviderSignMessage]
  | WalletSign => [CallOptionsGetProvider; CallProviderSign]
  | LedgerConnect => [CallTransportCreate; CallTransportOn]
  | LedgerDisconnect => []
  | LedgerSignMessage =>
      [CallTransportCreate; CallTransportOn; CallAppSignMessage; CallTransportClose]
  | LedgerSign =>
      [CallTransportCreate; CallTransportOn; CallAppSign; CallTransportClose]
  end.

(** One invocation took the log from [before] to [after]: it only added
    events, their calls, oldest first, are an initial stretch of the
    script, and no call was made twice. *)
Definition follows_script (s : list Call) (before after : Trace) : Prop :=
  exists delta,
    after = (delta ++ before)%list
    /\ omap call_of (rev delta) `prefix_of` s
    /\ forall k, calls k delta <= 1.

(** What an operation of the Ledger connector may leave on the instance:
    nothing but the handles of the transport it opened.  The account index,
    the event provider and the options are as before; the transport and the
    app are as before, or are the ones [TransportWebUSB.create] just gave. *)
Definition stores_only_handles (sdk : Sdk) (cx cx' : Ctx Ledger.Inst) : Prop :=
  Ledger.accountIndex (self cx') = Ledger.accountIndex (self cx)
  /\ Ledger.eventProvider (self cx') = Ledger.eventProvider (self cx)
  /\ Ledger.has_getEventProvider (self cx') = Ledger.has_getEventProvider (self cx)
  /\ ((Ledger.transport (self cx') = Ledger.transport (self cx)
       /\ Ledger.casperApp (self cx') = Ledger.casperApp (self cx))
      \/ exists t,
           TransportWebUSB_create sdk (log cx) = Resolves t
           /\ Ledger.transport (self cx') = Some t
           /\ Ledger.casperApp (self cx') = Some (NewCasperApp t)).

(** The connectors that the client state designates as active. *)
Definition active_connectors (s : StateParams) : list Ref :=
  match connector s with
  | Some r => [r]
  | None => []
  end.

(** The guard of the Ledger actions, read as a proposition: the client has
    a connector, and its id is not ['ledger']. *)
Definition has_other_connector (w : World) : Prop :=
  exists r, connector (store w) = Some r /\ connector_id (heap w r) <> "ledger".

(** The listeners registered, respectively removed, in a stretch of the
    log, oldest first, each with the event provider it was put on. *)
Definition listeners_added (t : Trace) : list (EventProvider * string) :=
  omap (fun e => match e with
                 | EvAddEventListener ep name => Some (ep, name)
                 | _ => None
                 end) (rev t).

Definition listeners_removed (t : Trace) : list (EventProvider * string) :=
  omap (fun e => match e with
                 | EvRemoveEventListener ep name => Some (ep, name)
                 | _ => None
                 end) (rev t).

(** The four events of the wallet extension that the connector listens to. *)
Definition wallet_events : list string :=
  [ "casper-wallet:activeKeyChanged"; "casper-wallet:disconnected";
    "casper-wallet:connected"; "casper-wallet:unlocked" ].

Definition is_console (e : Event) : bool :=
  match e with
  | EvConsoleError _ => true
  | _ => false
  end.

(** The number of [console.error] lines in a stretch of the log. *)
Definition console_lines (t : Trace) : nat :=
  length (List.filter is_console t).

(** The path a Ledger connector signs with: the stored account index when
    there is a non-empty one, else the index option, else ['0']. *)
Definition signing_path (utils : Utils) (i : Ledger.Inst) (index : option string) : string :=
  getLedgerPath utils (or_str (Ledger.accountIndex i) (default "0" index)).

(** The wallet connector holds the provider that its options gave at the
    history [t], and says it is ready. *)
Definition wallet_ready (sdk : Sdk) (t : Trace) (cx' : Ctx Wallet.Inst) : Prop :=
  Wallet.isReady (self cx') = true
  /\ exists p, options_getProvider sdk t = Resolves (Some p)
              /\ Wallet.provider (self cx') = Some p.

(** ** Further concrete environments *)

Module Scenarios.

Import ListNotations.

Definition sign_ok : ResponseSign :=
  {| signatureRS := Some [x01; x02]; signatureRSV := Some [x01; x02; x1b];
     errorMessage := Some "No errors"; returnCode := 36864 |}.

(** The device refused: no signature, an error message and a return code. *)
Definition sign_refused : ResponseSign :=
  {| signatureRS := None; signatureRSV := None;
     errorMessage := Some "Transaction rejected"; returnCode := 27014 |}.

(** An environment given by the answers that vary between scenarios. *)
Definition sdk_full
    (parse : string -> TsResult string)
    (fromHex : string -> Answer string)
    (request : Oracle bool)
    (create : Oracle Transport)
    (address : Oracle ResponseAddress)
    (app_msg : Oracle (option ResponseSign))
    (app_sig : Oracle ResponseSign)
    (wallet_sign : Oracle SignatureResponse) : Sdk := {|
  Json := string;
  Deploy := string;
  CLPublicKey := string;
  JSON_stringify := fun j => j;
  deployFromJson := parse;
  deployToJson := fun d => d;
  deployToBytes := fun d => list_byte_of_string d;
  setSignature := fun d _ _ => String.append d "+signed";
  validateDeploy := fun d => Ok d;
  CLPublicKey_fromHex := fromHex;
  options_getProvider := fun _ => Resolves (Some 1);
  options_getEventProvider := fun _ => Resolves (Some 2);
  requestConnection := fun _ => request;
  disconnectFromSite := fun _ _ => Resolves true;
  provider_isConnected := fun _ _ => Resolves true;
  provider_getActivePublicKey := fun _ _ => Resolves (Some "01aa");
  provider_signMessage := fun _ _ _ => wallet_sign;
  provider_sign := fun _ _ _ => wallet_sign;
  TransportWebUSB_create := create;
  transport_on := fun _ _ _ => Resolves tt;
  transport_close := fun _ _ => Resolves tt;
  getAddressAndPubKey := fun _ _ => address;
  app_signMessage := fun _ _ _ => app_msg;
  app_sign := fun _ _ _ => app_sig;
  foreign_disconnect := fun _ _ => Resolves tt
|}.

Definition parse_ok : string -> TsResult string := fun j => Ok j.

Definition parse_fails : string -> TsResult string := fun _ => Err "bad deploy".

Definition hex_ok : string -> Answer string := fun h => Resolves h.

Definition request_ok : Oracle bool := fun _ => Resolves true.

Definition request_rejected : Oracle bool := fun _ =>
  Rejects "Error" "User rejected the connection".

Definition app_msg_ok : Oracle (option ResponseSign) := fun _ => Resolves (Some sign_ok).

Definition app_msg_unplugged : Oracle (option ResponseSign) := fun _ =>
  Rejects "DisconnectedDevice" "The device was disconnected".

Definition app_sig_ok : Oracle ResponseSign := fun _ => Resolves sign_ok.

Definition app_sig_unplugged : Oracle ResponseSign := fun _ =>
  Rejects "DisconnectedDevice" "The device was disconnected".

Definition app_sig_refused : Oracle ResponseSign := fun _ => Resolves sign_refused.

(** Everything succeeds. *)
Definition sdk_fine : Sdk :=
  sdk_full parse_ok hex_ok request_ok Samples.create_ok Samples.address_ok
           app_msg_ok app_sig_ok Samples.signed.

(** The deploy does not parse. *)
Definition sdk_bad_deploy : Sdk :=
  sdk_full parse_fails hex_ok request_ok Samples.create_ok Samples.address_ok
           app_msg_ok app_sig_ok Samples.signed.

(** The user refuses the connection. *)
Definition sdk_connection_rejected : Sdk :=
  sdk_full parse_ok hex_ok request_rejected Samples.create_ok Samples.address_ok
           app_msg_ok app_sig_ok Samples.signed.

(** The device is unplugged while signing. *)
Definition sdk_unplugged : Sdk :=
  sdk_full parse_ok hex_ok request_ok Samples.create_ok Samples.address_ok
           app_msg_unplugged app_sig_unplugged Samples.signed.

(** A wallet connector that went through [getProvider] once. *)
Definition wallet1 : Ctx Wallet.Inst :=
  MkCtx (Wallet.MkInst true (Some 1) None true true) [EvOptionsGetProvider].

(** A Ledger connector on which account ["4"] was selected. *)
Definition ledger4 : Ctx Ledger.Inst :=
  MkCtx (Ledger.set_accountIndex "4" (Ledger.new true)) [].

End Scenarios.

(** The instance once [connect] has stored the handles of transport [t]. *)
Definition connected_with (t : Transport) (i : Ledger.Inst) : Ledger.Inst :=
  Ledger.set_casperApp (NewCasperApp t) (Ledger.set_transport t i).

(** The objects a world holds keep their class, and the Ledger ones their
    account index. *)
Definition same_account_indices (w w' : World) : Prop :=
  forall r,
    match heap w r with
    | LedgerConnector i =>
        exists i', heap w' r = LedgerConnector i'
                   /\ Ledger.accountIndex i' = Ledger.accountIndex i
    | o => heap w' r = o
    end.

(** One for a thrown completion, zero for a returned one. *)
Definition one_if_thrown {A} (c : Completion A) : nat :=
  match c with
  | Throw _ => 1
  | Return _ => 0
  end.

(** * Properties *)

(** ** Reasoning about monadic code *)

Ltac unfold_monad :=
  unfold bind, try_catch, ret, throw, this, set_this, sdk_call, emit,
    console_error, lift_answer, unwrap, completion_of in *;
  cbn in *.

(** Split on the scrutinee of an innermost [match]. *)
Ltac split_on x :=
  lazymatch x with
  | context [match _ with _ => _ end] => fail
  | _ => destruct x eqn:?; cbn in *
  end.

Ltac case_step :=
  match goal with
  | H : context [match ?x with _ => _ end] |- _ => split_on x
  | |- context [match ?x with _ => _ end] => split_on x
  end.

(** Use the equations between completions, pairs and options at hand. *)
Ltac use_eqs :=
  repeat match goal with
    | E : (_, _) = (_, _) |- _ => inversion E; subst; clear E
    | E : Some _ = Some _ |- _ => inversion E; subst; clear E
    | E : Return _ = Return _ |- _ => inversion E; subst; clear E
    | E : Throw _ = Throw _ |- _ => inversion E; subst; clear E
    | E : Resolves _ = Resolves _ |- _ => inversion E; subst; clear E
    end.

Ltac crunch := repeat (case_step; try discriminate; use_eqs; try discriminate).

(** ** The account index of the Ledger connector *)

(** C9: reading the account index after writing a non-empty one gives it
    back; on a fresh connector and after writing the empty string the
    reading is ['0']; in every state the reading is a non-empty string,
    never [undefined]. *)
Theorem getAccountIndex_after_set
    (i : string) (cx : Ctx Ledger.Inst) (has : bool) (l : Trace) :
  i <> "" ->
  fst ((Ledger.setAccountIndex i ;;; Ledger.getAccountIndex) cx) = Return (Some i)
  /\ fst (Ledger.getAccountIndex (MkCtx (Ledger.new has) l)) = Return (Some "0")
  /\ fst ((Ledger.setAccountIndex "" ;;; Ledger.getAccountIndex) cx) = Return (Some "0")
  /\ exists s, fst (Ledger.getAccountIndex cx) = Return (Some s) /\ s <> "".
Proof.
  intros Hi. repeat split.
  - destruct i; [congruence | reflexivity].
  - unfold Ledger.getAccountIndex. unfold_monad.
    destruct (Ledger.accountIndex (self cx)) as [[|a s]|]; eexists; split;
      try reflexivity; discriminate.
Qed.

Lemma getAccountIndex_after_set_witness :
  "5" <> "" /\
  fst ((Ledger.setAccountIndex "5" ;;; Ledger.getAccountIndex) Samples.ledger0)
    = Return (Some "5").
Proof.
  split; [discriminate |].
  apply (getAccountIndex_after_set "5" Samples.ledger0 true nil). discriminate.
Defined.

(** ** The public key of the Ledger connector *)

Section GetPublicKey.
Context (utils : Utils) (sdk : Sdk).

(** A successful [getPublicKey] went through one successful [connect] and
    one answer of the device that carried a key. *)
Lemma getPublicKey_returns (index s : string) (cx cx' : Ctx Ledger.Inst) :
  Ledger.getPublicKey utils sdk index cx = (Return s, cx') ->
  exists t value pk,
    TransportWebUSB_create sdk (log cx) = Resolves t
    /\ getAddressAndPubKey sdk (NewCasperApp t) (getLedgerPath utils index) (asked_at cx)
       = Resolves value
    /\ publicKey value = Some pk
    /\ s = String.append (SECP256K1 utils) (toString_hex pk).
Proof.
  unfold Ledger.getPublicKey, Ledger.getProvider, Ledger.connect,
    Ledger.close_transport, asked_at.
  unfold_monad. intros H.
  crunch.
  all: eexists _, _, _; repeat split; eauto.
Qed.

(** When the device answers without a key and without an error, and the
    transport closes, the call fails with [CONNECT_ERROR_MESSAGE]. *)
Lemma getPublicKey_missing_key (index : string) (cx : Ctx Ledger.Inst)
    (t : Transport) (value : ResponseAddress) :
  let path := getLedgerPath utils index in
  TransportWebUSB_create sdk (log cx) = Resolves t ->
  transport_on sdk t "disconnect" (EvTransportCreate :: log cx) = Resolves tt ->
  getAddressAndPubKey sdk (NewCasperApp t) path (asked_at cx) = Resolves value ->
  publicKey value = None ->
  truthy_str (ra_errorMessage value) = false \/ ra_errorMessage value = Some "No errors" ->
  transport_close sdk t (EvGetAddressAndPubKey path :: asked_at cx) = Resolves tt ->
  fst (Ledger.getPublicKey utils sdk index cx) = Throw (Error (CONNECT_ERROR_MESSAGE utils)).
Proof.
  intros path Hc Hon Hdev Hpk Herr Hclose. subst path.
  unfold Ledger.getPublicKey, Ledger.getProvider, Ledger.connect,
    Ledger.close_transport, asked_at in *.
  unfold_monad. rewrite Hc. cbn. rewrite Hon. cbn. rewrite Hdev. cbn.
  destruct Herr as [Hfalsy | Hnone].
  - destruct (ra_errorMessage value) as [[|a m]|]; cbn in *; try discriminate;
      rewrite Hclose; cbn; rewrite Hpk; reflexivity.
  - rewrite Hnone. cbn. rewrite Hclose. cbn. rewrite Hpk. reflexivity.
Qed.

(** C10, as the code has it: every successful call returns the algorithm
    prefix followed by the hex encoding of the key bytes that the device
    returned; and when the device reports no error and returns no key (and
    the transport closes), the call throws an error with
    [CONNECT_ERROR_MESSAGE]. *)
Theorem getPublicKey_prefix_hex (index : string) (cx : Ctx Ledger.Inst) :
  (forall s cx',
     Ledger.getPublicKey utils sdk index cx = (Return s, cx') ->
     exists t value pk,
       TransportWebUSB_create sdk (log cx) = Resolves t
       /\ getAddressAndPubKey sdk (NewCasperApp t) (getLedgerPath utils index) (asked_at cx)
          = Resolves value
       /\ publicKey value = Some pk
       /\ s = String.append (SECP256K1 utils) (toString_hex pk))
  /\ (forall t value,
        TransportWebUSB_create sdk (log cx) = Resolves t ->
        transport_on sdk t "disconnect" (EvTransportCreate :: log cx) = Resolves tt ->
        getAddressAndPubKey sdk (NewCasperApp t) (getLedgerPath utils index) (asked_at cx)
          = Resolves value ->
        publicKey value = None ->
        truthy_str (ra_errorMessage value) = false
          \/ ra_errorMessage value = Some "No errors" ->
        transport_close sdk t
          (EvGetAddressAndPubKey (getLedgerPath utils index) :: asked_at cx) = Resolves tt ->
        fst (Ledger.getPublicKey utils sdk index cx)
          = Throw (Error (CONNECT_ERROR_MESSAGE utils))).
Proof.
  split.
  - intros s cx' H. exact (getPublicKey_returns index s cx cx' H).
  - intros t value. apply getPublicKey_missing_key.
Qed.

End GetPublicKey.

Lemma getPublicKey_prefix_hex_witness :
  fst (Ledger.getPublicKey Samples.utils
         (Samples.sdk_with Samples.create_ok Samples.address_missing
                           Samples.signed Samples.site_ok)
         "0" Samples.ledger0)
    = Throw (Error "Unable to connect to Ledger device")
  /\ fst (Ledger.getPublicKey Samples.utils Samples.sdk_ok "0" Samples.ledger0)
     = Return "0203a10f".
Proof.
  split.
  - apply (proj2 (getPublicKey_prefix_hex Samples.utils
                    (Samples.sdk_with Samples.create_ok Samples.address_missing
                                      Samples.signed Samples.site_ok)
                    "0" Samples.ledger0) 7
                 {| publicKey := None; ra_errorMessage := None; ra_returnCode := 36864 |});
      try reflexivity.
    left. reflexivity.
  - destruct (Ledger.getPublicKey Samples.utils Samples.sdk_ok "0" Samples.ledger0)
      as [c cx'] eqn:E.
    assert (Hc : c = Return "0203a10f") by (vm_compute in E; congruence).
    subst c.
    destruct (proj1 (getPublicKey_prefix_hex Samples.utils Samples.sdk_ok
                       "0" Samples.ledger0) _ _ E)
      as (t & value & pk & _ & _ & _ & Hs).
    reflexivity.
Defined.

(** C10, as stated, fails: a device answer carrying a key buffer of length
    zero is not rejected; the call returns the bare prefix. *)
Lemma getPublicKey_empty_key_returns_bare_prefix :
  let sdk := Samples.sdk_with Samples.create_ok Samples.address_empty
                              Samples.signed Samples.site_ok in
  (exists value,
     getAddressAndPubKey sdk (NewCasperApp 7)
       (getLedgerPath Samples.utils "0") (asked_at Samples.ledger0) = Resolves value
     /\ publicKey value = Some nil)
  /\ fst (Ledger.getPublicKey Samples.utils sdk "0" Samples.ledger0)
     = Return (SECP256K1 Samples.utils)
  /\ fst (Ledger.getPublicKey Samples.utils sdk "0" Samples.ledger0)
     <> Throw (Error (CONNECT_ERROR_MESSAGE Samples.utils)).
Proof.
  cbv zeta. split; [| split].
  - eexists. split; reflexivity.
  - reflexivity.
  - vm_compute. discriminate.
Qed.

(** ** Cancellation in the wallet connector *)

(** C3: when the extension answers [signMessage] or [sign] with
    [cancelled = true], the connector method returns [undefined]: it throws
    nothing and builds no signature and no signed deploy.  The only trace of
    the call is the request to the extension. *)
Theorem wallet_cancelled_returns_undefined
    (sdk : Sdk) (message key : string) (deploy : Json sdk)
    (cx cx1 : Ctx Wallet.Inst) (p : Provider) (resp_msg resp_sign : SignatureResponse) :
  Wallet.getProvider sdk cx = (Return p, cx1) ->
  provider_signMessage sdk p message key (log cx1) = Resolves resp_msg ->
  cancelled resp_msg = true ->
  provider_sign sdk p (JSON_stringify sdk deploy) key (log cx1) = Resolves resp_sign ->
  cancelled resp_sign = true ->
  Wallet.signMessage sdk message key cx
    = (Return None, MkCtx (self cx1) (EvProviderSignMessage message key :: log cx1))
  /\ Wallet.sign sdk deploy key cx
    = (Return None, MkCtx (self cx1) (EvProviderSign key :: log cx1)).
Proof.
  intros Hp Hm Hcm Hs Hcs.
  unfold Wallet.signMessage, Wallet.sign.
  unfold bind at 1 3. rewrite Hp.
  unfold bind, sdk_call, ret. cbn.
  rewrite Hm, Hs. cbn. rewrite Hcm, Hcs. split; reflexivity.
Qed.

Lemma wallet_cancelled_returns_undefined_witness :
  let sdk := Samples.sdk_with Samples.create_ok Samples.address_ok
                              Samples.user_cancelled Samples.site_ok in
  fst (Wallet.signMessage sdk "hello" "01aa" Samples.wallet0) = Return None
  /\ fst (Wallet.sign sdk "{}" "01aa" Samples.wallet0) = Return None.
Proof.
  cbv zeta.
  pose proof (wallet_cancelled_returns_undefined
                (Samples.sdk_with Samples.create_ok Samples.address_ok
                                  Samples.user_cancelled Samples.site_ok)
                "hello" "01aa" "{}" Samples.wallet0
                (MkCtx (Wallet.MkInst true (Some 1) None true true)
                       (EvOptionsGetProvider :: nil))
                1
                {| cancelled := true; signatureHex := None; signature := None |}
                {| cancelled := true; signatureHex := None; signature := None |}
                eq_refl eq_refl eq_refl eq_refl eq_refl) as [Hm Hs].
  split; [rewrite Hm | rewrite Hs]; reflexivity.
Defined.

(** ** Validation in [useSign] *)

(** The test-suite of the hook, replayed on the model. *)
Example useSign_test_deploy_not_provided :
  UseSign.signAsync (fun _ => Return tt)
    (UseSign.MkParams None None None)
    (Some (UseSign.MkParams None (Some "") (Some "")))
  = Throw (Error "Deploy must be a non-empty").
Proof. reflexivity. Qed.

Example useSign_test_signingPublicKey_not_provided :
  UseSign.signAsync (fun _ => Return tt)
    (UseSign.MkParams (Some (UseSign.DeployString "test")) None None)
    (Some (UseSign.MkParams (Some (UseSign.DeployObject nil)) None (Some "abc")))
  = Throw (Error "signingPublicKey must be a non-empty string").
Proof. reflexivity. Qed.

Example useSign_test_targetPublicKeyHex_not_provided :
  UseSign.signAsync (fun _ => Return tt)
    (UseSign.MkParams (Some (UseSign.DeployString "test")) (Some "test") None)
    (Some (UseSign.MkParams (Some (UseSign.DeployObject nil)) (Some "abc") None))
  = Throw (Error "targetPublicKeyHex must be a non-empty string").
Proof. reflexivity. Qed.

Example useSign_test_hook_params :
  UseSign.signAsync (fun _ => Return tt)
    (UseSign.MkParams (Some (UseSign.DeployObject (("id", "123") :: nil)))
                      (Some "123") (Some "456"))
    None
  = Return tt.
Proof. reflexivity. Qed.

(** C2, with the precedence of the checks made explicit: an empty deploy
    is rejected with ['Deploy must be a non-empty']; with a deploy present,
    an empty [signingPublicKey] is rejected with its message; with both
    present, an empty [targetPublicKeyHex] is rejected with its message.  In
    none of these cases is the sign action reached. *)
Theorem useSign_rejects_empty_fields
    (A : Type) (act : UseSign.SignParams -> Completion A)
    (hook : UseSign.SignParams) (args : option UseSign.SignParams) :
  let p := default hook args in
  (UseSign.truthy_deploy (UseSign.deploy p) = false ->
   UseSign.signAsync act hook args = Throw (Error "Deploy must be a non-empty"))
  /\ (UseSign.truthy_deploy (UseSign.deploy p) = true ->
      truthy_str (UseSign.signingPublicKey p) = false ->
      UseSign.signAsync act hook args
        = Throw (Error "signingPublicKey must be a non-empty string"))
  /\ (UseSign.truthy_deploy (UseSign.deploy p) = true ->
      truthy_str (UseSign.signingPublicKey p) = true ->
      truthy_str (UseSign.targetPublicKeyHex p) = false ->
      UseSign.signAsync act hook args
        = Throw (Error "targetPublicKeyHex must be a non-empty string")).
Proof.
  cbv zeta. unfold UseSign.signAsync, UseSign.validate.
  repeat split; intros; 
    repeat match goal with H : _ = _ |- _ => rewrite H; clear H end; reflexivity.
Qed.

Lemma useSign_rejects_empty_fields_witness :
  UseSign.signAsync (fun _ => Return tt)
    (UseSign.MkParams None None None)
    (Some (UseSign.MkParams None (Some "k") (Some "t")))
  = Throw (Error "Deploy must be a non-empty")
  /\ UseSign.signAsync (fun _ => Return tt)
       (UseSign.MkParams None None None)
       (Some (UseSign.MkParams (Some (UseSign.DeployObject nil)) (Some "") (Some "t")))
     = Throw (Error "signingPublicKey must be a non-empty string")
  /\ UseSign.signAsync (fun _ => Return tt)
       (UseSign.MkParams None None None)
       (Some (UseSign.MkParams (Some (UseSign.DeployObject nil)) (Some "k") (Some "")))
     = Throw (Error "targetPublicKeyHex must be a non-empty string").
Proof.
  split; [| split].
  - apply (useSign_rejects_empty_fields unit (fun _ => Return tt)
             (UseSign.MkParams None None None)
             (Some (UseSign.MkParams None (Some "k") (Some "t")))).
    reflexivity.
  - apply (useSign_rejects_empty_fields unit (fun _ => Return tt)
             (UseSign.MkParams None None None)
             (Some (UseSign.MkParams (Some (UseSign.DeployObject nil)) (Some "") (Some "t"))));
      reflexivity.
  - apply (useSign_rejects_empty_fields unit (fun _ => Return tt)
             (UseSign.MkParams None None None)
             (Some (UseSign.MkParams (Some (UseSign.DeployObject nil)) (Some "k") (Some ""))));
      reflexivity.
Defined.

(** C2, as stated, fails: a call whose [signingPublicKey] and
    [targetPublicKeyHex] are empty, and whose deploy is missing as well, is
    rejected with the message of the deploy, not with theirs. *)
Lemma useSign_empty_key_with_empty_deploy :
  let args := UseSign.MkParams None (Some "") (Some "") in
  truthy_str (UseSign.signingPublicKey args) = false
  /\ truthy_str (UseSign.targetPublicKeyHex args) = false
  /\ UseSign.signAsync (fun _ => Return tt) (UseSign.MkParams None None None) (Some args)
     = Throw (Error "Deploy must be a non-empty")
  /\ UseSign.signAsync (fun _ => Return tt) (UseSign.MkParams None None None) (Some args)
     <> Throw (Error "signingPublicKey must be a non-empty string")
  /\ UseSign.signAsync (fun _ => Return tt) (UseSign.MkParams None None None) (Some args)
     <> Throw (Error "targetPublicKeyHex must be a non-empty string").
Proof.
  cbv zeta. repeat split; try reflexivity; vm_compute; discriminate.
Qed.

(** ** Fixed call sequences, no retries *)

Ltac delta_of t base :=
  lazymatch t with
  | base => constr:(@nil Event)
  | ?e :: ?r => let d := delta_of r base in constr:(e :: d)
  end.

Ltac solve_script :=
  lazymatch goal with
  | |- follows_script _ ?before ?after =>
      let d := delta_of after before in
      exists d; split; [reflexivity | split;
        [ eexists; reflexivity
        | let k := fresh "k" in intros k; destruct k; vm_compute; lia ] ]
  end.

Section NoRetries.
Context (utils : Utils) (sdk : Sdk).

Lemma wallet_connect_script (cx : Ctx Wallet.Inst) :
  follows_script (script WalletConnect) (log cx) (log (snd (Wallet.connect sdk cx))).
Proof.
  unfold Wallet.connect, Wallet.getProvider, Wallet.getEventProvider.
  unfold_monad. crunch; solve_script.
Qed.

Lemma wallet_disconnect_script (cx : Ctx Wallet.Inst) :
  follows_script (script WalletDisconnect) (log cx) (log (snd (Wallet.disconnect sdk cx))).
Proof.
  unfold Wallet.disconnect, Wallet.getProvider, Wallet.getEventProvider.
  unfold_monad. crunch; solve_script.
Qed.

Lemma wallet_signMessage_script (message key : string) (cx : Ctx Wallet.Inst) :
  follows_script (script WalletSignMessage) (log cx)
    (log (snd (Wallet.signMessage sdk message key cx))).
Proof.
  unfold Wallet.signMessage, Wallet.getProvider.
  unfold_monad. crunch; solve_script.
Qed.

Lemma wallet_sign_script (deploy : Json sdk) (key : string) (cx : Ctx Wallet.Inst) :
  follows_script (script WalletSign) (log cx)
    (log (snd (Wallet.sign sdk deploy key cx))).
Proof.
  unfold Wallet.sign, Wallet.getProvider.
  unfold_monad. crunch; solve_script.
Qed.

Lemma ledger_connect_script (cx : Ctx Ledger.Inst) :
  follows_script (script LedgerConnect) (log cx)
    (log (snd (Ledger.connect utils sdk cx))).
Proof.
  unfold Ledger.connect.
  unfold_monad. crunch; solve_script.
Qed.

Lemma ledger_disconnect_script (cx : Ctx Ledger.Inst) :
  follows_script (script LedgerDisconnect) (log cx)
    (log (snd (Ledger.disconnect cx))).
Proof.
  unfold Ledger.disconnect. unfold_monad. solve_script.
Qed.

Lemma ledger_signMessage_script (message key : string) (index : option string)
    (cx : Ctx Ledger.Inst) :
  follows_script (script LedgerSignMessage) (log cx)
    (log (snd (Ledger.signMessage utils sdk message key index cx))).
Proof.
  unfold Ledger.signMessage, Ledger.getProvider, Ledger.connect, Ledger.close_transport.
  unfold_monad. crunch; solve_script.
Qed.

Lemma ledger_sign_script (deploy : Json sdk) (key target : string)
    (index : option string) (cx : Ctx Ledger.Inst) :
  follows_script (script LedgerSign) (log cx)
    (log (snd (Ledger.sign utils sdk deploy key target index cx))).
Proof.
  unfold Ledger.sign, Ledger.getProvider, Ledger.connect, Ledger.close_transport.
  unfold_monad. crunch; solve_script.
Qed.

(** C7: every invocation of [connect], [disconnect], [signMessage] and
    [sign], on either connector and whatever the libraries answer, only
    appends to the log, issues its library calls as an initial stretch of
    one fixed sequence, and issues none of them twice: a call that failed is
    not attempted again. *)
Theorem connector_operations_never_retry :
  (forall cx, follows_script (script WalletConnect) (log cx)
                (log (snd (Wallet.connect sdk cx))))
  /\ (forall cx, follows_script (script WalletDisconnect) (log cx)
                   (log (snd (Wallet.disconnect sdk cx))))
  /\ (forall message key cx,
        follows_script (script WalletSignMessage) (log cx)
          (log (snd (Wallet.signMessage sdk message key cx))))
  /\ (forall deploy key cx,
        follows_script (script WalletSign) (log cx)
          (log (snd (Wallet.sign sdk deploy key cx))))
  /\ (forall cx, follows_script (script LedgerConnect) (log cx)
                   (log (snd (Ledger.connect utils sdk cx))))
  /\ (forall cx, follows_script (script LedgerDisconnect) (log cx)
                   (log (snd (Ledger.disconnect cx))))
  /\ (forall message key index cx,
        follows_script (script LedgerSignMessage) (log cx)
          (log (snd (Ledger.signMessage utils sdk message key index cx))))
  /\ (forall deploy key target index cx,
        follows_script (script LedgerSign) (log cx)
          (log (snd (Ledger.sign utils sdk deploy key target index cx)))).
Proof.
  repeat split; intros.
  - apply wallet_connect_script.
  - apply wallet_disconnect_script.
  - apply wallet_signMessage_script.
  - apply wallet_sign_script.
  - apply ledger_connect_script.
  - apply ledger_disconnect_script.
  - apply ledger_signMessage_script.
  - apply ledger_sign_script.
Qed.

End NoRetries.

(** A failed [TransportWebUSB.create] is followed by no second attempt. *)
Example ledger_connect_denied_once :
  let sdk := Samples.sdk_with Samples.create_denied Samples.address_ok
                              Samples.signed Samples.site_ok in
  Ledger.connect Samples.utils sdk Samples.ledger0
  = (Throw (Error "Access denied to use Ledger device"),
     MkCtx (Ledger.new true) [EvTransportCreate]).
Proof. reflexivity. Qed.

(** ** State kept on the connector instance *)

Ltac solve_handles :=
  unfold stores_only_handles; cbn;
  repeat split;
  first [ left; split; reflexivity
        | right; eexists; repeat split; eauto ].

Section InstanceState.
Context (utils : Utils) (sdk : Sdk).

Lemma connect_stores_only_handles (cx : Ctx Ledger.Inst) :
  stores_only_handles sdk cx (snd (Ledger.connect utils sdk cx)).
Proof.
  unfold Ledger.connect. unfold_monad. crunch; solve_handles.
Qed.

Lemma getPublicKey_stores_only_handles (index : string) (cx : Ctx Ledger.Inst) :
  stores_only_handles sdk cx (snd (Ledger.getPublicKey utils sdk index cx)).
Proof.
  unfold Ledger.getPublicKey, Ledger.getProvider, Ledger.connect, Ledger.close_transport.
  unfold_monad. crunch; solve_handles.
Qed.

Lemma signMessage_stores_only_handles (message key : string) (index : option string)
    (cx : Ctx Ledger.Inst) :
  stores_only_handles sdk cx (snd (Ledger.signMessage utils sdk message key index cx)).
Proof.
  unfold Ledger.signMessage, Ledger.getProvider, Ledger.connect, Ledger.close_transport.
  unfold_monad. crunch; solve_handles.
Qed.

Lemma sign_stores_only_handles (deploy : Json sdk) (key target : string)
    (index : option string) (cx : Ctx Ledger.Inst) :
  stores_only_handles sdk cx (snd (Ledger.sign utils sdk deploy key target index cx)).
Proof.
  unfold Ledger.sign, Ledger.getProvider, Ledger.connect, Ledger.close_transport.
  unfold_monad. crunch; solve_handles.
Qed.

(** C6, as the code has it: the Ledger connector does keep state on the
    instance, in memory.  [setAccountIndex] stores the index in
    [accountIndex] and touches nothing else; [connect], [getPublicKey],
    [signMessage] and [sign] store at most the handles of the transport
    they open, and leave the stored account index as it was. *)
Theorem ledger_instance_state (cx : Ctx Ledger.Inst) :
  (forall i,
     snd (Ledger.setAccountIndex i cx)
     = MkCtx (Ledger.set_accountIndex i (self cx)) (log cx))
  /\ stores_only_handles sdk cx (snd (Ledger.connect utils sdk cx))
  /\ (forall index,
        stores_only_handles sdk cx (snd (Ledger.getPublicKey utils sdk index cx)))
  /\ (forall message key index,
        stores_only_handles sdk cx
          (snd (Ledger.signMessage utils sdk message key index cx)))
  /\ (forall deploy key target index,
        stores_only_handles sdk cx
          (snd (Ledger.sign utils sdk deploy key target index cx))).
Proof.
  split; [reflexivity |].
  split; [apply connect_stores_only_handles |].
  split; [intros; apply getPublicKey_stores_only_handles |].
  split; intros.
  - apply signMessage_stores_only_handles.
  - apply sign_stores_only_handles.
Qed.

End InstanceState.

(** C6, as stated, fails: the index given to [setAccountIndex] is stored on
    the instance and is there at the next call; [connect] stores the
    transport and the app. *)
Lemma setAccountIndex_survives_between_calls :
  let after_set := snd (Ledger.setAccountIndex "5" Samples.ledger0) in
  let after_connect := snd (Ledger.connect Samples.utils Samples.sdk_ok Samples.ledger0) in
  self after_set <> self Samples.ledger0
  /\ fst (Ledger.getAccountIndex Samples.ledger0) = Return (Some "0")
  /\ fst (Ledger.getAccountIndex after_set) = Return (Some "5")
  /\ Ledger.transport (self Samples.ledger0) = None
  /\ Ledger.transport (self after_connect) = Some 7
  /\ Ledger.casperApp (self after_connect) = Some (NewCasperApp 7).
Proof.
  cbv zeta. repeat split; try reflexivity. vm_compute. discriminate.
Qed.

(** ** The client state under the account actions *)

Section ClientState.
Context (utils : Utils) (sdk : Sdk).

(** Connector methods do not touch the client state. *)
Lemma on_ledger_store {A} (r : Ref) (name : string) (m : M (Ctx Ledger.Inst) A) (w : World) :
  store (snd (on_ledger r name m w)) = store w.
Proof.
  unfold on_ledger. destruct (heap w r); try reflexivity.
  destruct (m _); reflexivity.
Qed.

Lemma on_wallet_store {A} (r : Ref) (m : M (Ctx Wallet.Inst) A) (w : World) :
  store (snd (on_wallet r m w)) = store w.
Proof.
  unfold on_wallet. destruct (heap w r); try reflexivity.
  destruct (m _); reflexivity.
Qed.

Lemma Connector_disconnect_store (r : Ref) (w : World) :
  store (snd (Account.Connector_disconnect sdk r w)) = store w.
Proof.
  unfold Account.Connector_disconnect. destruct (heap w r) eqn:E.
  - apply on_ledger_store.
  - apply on_wallet_store.
  - reflexivity.
Qed.

(** The [try] block of [disconnect], in terms of the connector call. *)
Lemma disconnect_try_eq (w : World) :
  Account.disconnect_try sdk w =
  match connector (store w) with
  | Some r =>
      match Account.Connector_disconnect sdk r w with
      | (Return _, w1) => (Return tt, MkWorld (Account.disconnect_updater (store w1)) (heap w1) (trace w1))
      | (Throw e, w1) => (Throw e, w1)
      end
  | None => (Return tt, MkWorld (Account.disconnect_updater (store w)) (heap w) (trace w))
  end.
Proof.
  unfold Account.disconnect_try, client_connector, setState. unfold_monad.
  destruct (connector (store w)); [| reflexivity].
  destruct (Account.Connector_disconnect sdk r w) as [[u|e] w1]; reflexivity.
Qed.

(** A [try] block of [disconnect] that throws leaves the client state as it
    was. *)
Lemma disconnect_try_throws_store (w w1 : World) (e : Exn) :
  Account.disconnect_try sdk w = (Throw e, w1) -> store w1 = store w.
Proof.
  rewrite disconnect_try_eq. intros H.
  destruct (connector (store w)) as [r|]; [| discriminate].
  pose proof (Connector_disconnect_store r w) as Hs.
  destruct (Account.Connector_disconnect sdk r w) as [[u|e'] w2]; [discriminate |].
  inversion H; subst. exact Hs.
Qed.

(** The connector reference after [disconnect]. *)
Lemma disconnect_connector (w : World) :
  connector (store (snd (Account.disconnect sdk w))) = connector (store w).
Proof.
  unfold Account.disconnect, try_catch. rewrite disconnect_try_eq.
  destruct (connector (store w)) as [r|] eqn:Ec; cbn; [| exact Ec].
  pose proof (Connector_disconnect_store r w) as Hs.
  destruct (Account.Connector_disconnect sdk r w) as [[u|e'] w2]; cbn in *.
  - rewrite Hs. exact Ec.
  - rewrite Hs. exact Ec.
Qed.

(** The connector reference after [setLedgerAccountIndex]. *)
Lemma setLedgerAccountIndex_connector (index : option string) (w : World) :
  connector (store (snd (Account.setLedgerAccountIndex utils sdk index w)))
  = connector (store w).
Proof.
  unfold Account.setLedgerAccountIndex, Account.setLedgerAccountIndex_try,
    Account.require_ledger, client_connector, read_id, setState.
  unfold_monad.
  destruct (connector (store w)) as [r|] eqn:Ec; cbn; [| exact Ec].
  destruct (negb _); cbn; [exact Ec |].
  pose proof (on_ledger_store r "connector.getPublicKey"
                (Ledger.getPublicKey utils sdk (default "0" index)) w) as Hs.
  destruct (on_ledger r "connector.getPublicKey" _ w) as [[pk|e] w1]; cbn in *.
  - pose proof (on_ledger_store r "connector.setAccountIndex"
                  (Ledger.setAccountIndex (default "0" index))
                  (MkWorld (Account.ledger_updater (default "0" index) pk (store w1))
                           (heap w1) (trace w1))) as Hs2.
    destruct (on_ledger r "connector.setAccountIndex" _ _) as [[u|e] w2]; cbn in *;
      rewrite Hs2; cbn; rewrite Hs; exact Ec.
  - rewrite Hs. exact Ec.
Qed.

(** C4: the client state designates at most one active connector, and
    [disconnect] and [setLedgerAccountIndex], whatever their outcome, leave
    the state with the same designation: their updates overwrite the state
    object and add no connector to it. *)
Theorem one_active_connector (index : option string) (w : World) :
  length (active_connectors (store w)) <= 1
  /\ active_connectors (store (snd (Account.disconnect sdk w)))
     = active_connectors (store w)
  /\ active_connectors (store (snd (Account.setLedgerAccountIndex utils sdk index w)))
     = active_connectors (store w)
  /\ length (active_connectors (store (snd (Account.disconnect sdk w)))) <= 1
  /\ length (active_connectors
               (store (snd (Account.setLedgerAccountIndex utils sdk index w)))) <= 1.
Proof.
  assert (Hone : forall s, length (active_connectors s) <= 1).
  { intros s. unfold active_connectors. destruct (connector s); cbn; lia. }
  unfold active_connectors at 2 3 4 5.
  rewrite disconnect_connector, setLedgerAccountIndex_connector.
  repeat split; auto.
Qed.

(** C5: when the connector's [disconnect] succeeds (or there is no
    connector to call), the action completes, the status is [DISCONNECTED],
    [data.activeKey] reads [undefined], and the connector reference, the
    other properties of the state and every other property of [data] are
    as before. *)
Theorem disconnect_frame (w : World) :
  (forall r, connector (store w) = Some r ->
             fst (Account.Connector_disconnect sdk r w) = Return tt) ->
  let w' := snd (Account.disconnect sdk w) in
  fst (Account.disconnect sdk w) = Return tt
  /\ status (store w') = Some DISCONNECTED
  /\ prop (data (store w')) "activeKey" = VUndef
  /\ connector (store w') = connector (store w)
  /\ others (store w') = others (store w)
  /\ forall k, k <> "activeKey" ->
       spread (data (store w')) !! k = spread (data (store w)) !! k.
Proof.
  intros Hok. cbv zeta.
  unfold Account.disconnect, try_catch. rewrite disconnect_try_eq.
  destruct (connector (store w)) as [r|] eqn:Ec; cbn.
  - specialize (Hok r eq_refl).
    pose proof (Connector_disconnect_store r w) as Hs.
    destruct (Account.Connector_disconnect sdk r w) as [[u|e'] w1]; cbn in *;
      [| discriminate].
    rewrite Hs.
    repeat split; auto.
    + unfold prop. cbn. rewrite lookup_insert_eq. reflexivity.
    + intros k Hk. rewrite lookup_insert_ne by congruence. reflexivity.
  - repeat split; auto.
    + unfold prop. cbn. rewrite lookup_insert_eq. reflexivity.
    + intros k Hk. rewrite lookup_insert_ne by congruence. reflexivity.
Qed.

(** What the [catch] blocks do: [setLedgerAccountIndex] and
    [getLedgerPublicKey] log whatever their [try] block throws and throw it
    again; [disconnect] logs it and completes normally, with the client
    state as it was. *)
Theorem actions_log_errors (w w1 : World) (e : Exn) (index : string) :
  (Account.setLedgerAccountIndex_try utils sdk index w = (Throw e, w1) ->
   Account.setLedgerAccountIndex utils sdk (Some index) w
   = (Throw e, set_trace (EvConsoleError (LogExn e) :: trace w1) w1))
  /\ (Account.getLedgerPublicKey_try utils sdk index w = (Throw e, w1) ->
      Account.getLedgerPublicKey utils sdk (Some index) w
      = (Throw e, set_trace (EvConsoleError (LogExn e) :: trace w1) w1))
  /\ (Account.disconnect_try sdk w = (Throw e, w1) ->
      Account.disconnect sdk w
      = (Return tt, set_trace (EvConsoleError (LogExn e) :: trace w1) w1)
      /\ store w1 = store w).
Proof.
  repeat split.
  - intros H. unfold Account.setLedgerAccountIndex, try_catch.
    change (default "0" (Some index)) with index. rewrite H. reflexivity.
  - intros H. unfold Account.getLedgerPublicKey, try_catch.
    change (default "0" (Some index)) with index. rewrite H. reflexivity.
  - unfold Account.disconnect, try_catch. rewrite H. reflexivity.
  - eapply disconnect_try_throws_store; eauto.
Qed.

(** [getPublicKey] never throws the error class of the actions. *)
Lemma getPublicKey_not_ConnectorNotLedgerError (index : string) (cx : Ctx Ledger.Inst) :
  fst (Ledger.getPublicKey utils sdk index cx) <> Throw ConnectorNotLedgerError.
Proof.
  unfold Ledger.getPublicKey, Ledger.getProvider, Ledger.connect, Ledger.close_transport.
  unfold_monad. crunch; discriminate.
Qed.

Lemma on_ledger_getPublicKey_not_ConnectorNotLedgerError
    (r : Ref) (index : string) (w : World) :
  fst (on_ledger r "connector.getPublicKey" (Ledger.getPublicKey utils sdk index) w)
  <> Throw ConnectorNotLedgerError.
Proof.
  unfold on_ledger. destruct (heap w r); cbn; try discriminate.
  pose proof (getPublicKey_not_ConnectorNotLedgerError index (MkCtx i (trace w))) as H.
  destruct (Ledger.getPublicKey _ _ _ _) as [c cx']. exact H.
Qed.

Lemma on_ledger_setAccountIndex_not_ConnectorNotLedgerError
    (r : Ref) (index : string) (w : World) :
  fst (on_ledger r "connector.setAccountIndex" (Ledger.setAccountIndex index) w)
  <> Throw ConnectorNotLedgerError.
Proof.
  unfold on_ledger. destruct (heap w r); cbn; discriminate.
Qed.

Lemma setLedgerAccountIndex_not_ledger_iff (index : option string) (w : World) :
  fst (Account.setLedgerAccountIndex utils sdk index w) = Throw ConnectorNotLedgerError
  <-> has_other_connector w.
Proof.
  unfold has_other_connector.
  unfold Account.setLedgerAccountIndex, Account.setLedgerAccountIndex_try,
    Account.require_ledger, client_connector, read_id, setState.
  unfold_monad.
  destruct (connector (store w)) as [r|] eqn:Ec; cbn.
  - destruct (String.eqb_spec (connector_id (heap w r)) "ledger") as [Hid | Hid]; cbn.
    + split.
      * intros H. exfalso.
        pose proof (on_ledger_getPublicKey_not_ConnectorNotLedgerError
                      r (default "0" index) w) as Hg.
        destruct (on_ledger r "connector.getPublicKey" _ w) as [[pk|e] w1]; cbn in *.
        -- pose proof (on_ledger_setAccountIndex_not_ConnectorNotLedgerError
                         r (default "0" index)
                         (MkWorld (Account.ledger_updater (default "0" index) pk (store w1))
                                  (heap w1) (trace w1))) as Hs.
           destruct (on_ledger r "connector.setAccountIndex" _ _) as [[u|e] w2];
             cbn in *; [discriminate | congruence].
        -- congruence.
      * intros (r' & Hr' & Hne). congruence.
    + split; [| reflexivity].
      intros _. exists r. split; [reflexivity | exact Hid].
  - split; [discriminate |].
    intros (r' & Hr' & _). discriminate.
Qed.

Lemma getLedgerPublicKey_not_ledger_iff (index : option string) (w : World) :
  fst (Account.getLedgerPublicKey utils sdk index w) = Throw ConnectorNotLedgerError
  <-> has_other_connector w.
Proof.
  unfold has_other_connector.
  unfold Account.getLedgerPublicKey, Account.getLedgerPublicKey_try,
    Account.require_ledger, client_connector, read_id.
  unfold_monad.
  destruct (connector (store w)) as [r|] eqn:Ec; cbn.
  - destruct (String.eqb_spec (connector_id (heap w r)) "ledger") as [Hid | Hid]; cbn.
    + split.
      * intros H. exfalso.
        pose proof (on_ledger_getPublicKey_not_ConnectorNotLedgerError
                      r (default "0" index) w) as Hg.
        destruct (on_ledger r "connector.getPublicKey" _ w) as [[pk|e] w1]; cbn in *;
          [discriminate | congruence].
      * intros (r' & Hr' & Hne). congruence.
    + split; [| reflexivity].
      intros _. exists r. split; [reflexivity | exact Hid].
  - split; [discriminate |].
    intros (r' & Hr' & _). discriminate.
Qed.

(** C8: each of the two Ledger actions throws [ConnectorNotLedgerError]
    exactly when the client has a connector whose id is not ['ledger'];
    without a connector, [getLedgerPublicKey] resolves to [undefined] and
    [setLedgerAccountIndex] fails with a [TypeError]. *)
Theorem not_ledger_error_iff (index : option string) (w : World) :
  (fst (Account.setLedgerAccountIndex utils sdk index w) = Throw ConnectorNotLedgerError
   <-> exists r, connector (store w) = Some r /\ connector_id (heap w r) <> "ledger")
  /\ (fst (Account.getLedgerPublicKey utils sdk index w) = Throw ConnectorNotLedgerError
      <-> exists r, connector (store w) = Some r /\ connector_id (heap w r) <> "ledger")
  /\ (connector (store w) = None ->
      fst (Account.getLedgerPublicKey utils sdk index w) = Return None
      /\ exists msg,
           fst (Account.setLedgerAccountIndex utils sdk index w) = Throw (TypeError msg)).
Proof.
  split; [apply setLedgerAccountIndex_not_ledger_iff |].
  split; [apply getLedgerPublicKey_not_ledger_iff |].
  intros Hnone.
  unfold Account.getLedgerPublicKey, Account.getLedgerPublicKey_try,
    Account.setLedgerAccountIndex, Account.setLedgerAccountIndex_try,
    Account.require_ledger, client_connector.
  unfold_monad. rewrite Hnone. cbn.
  split; [reflexivity | eexists; reflexivity].
Qed.

End ClientState.

(** ** The actions on concrete worlds *)

Lemma disconnect_frame_witness :
  let w := Samples.world_of (WalletConnector (self Samples.wallet0)) in
  let w' := snd (Account.disconnect Samples.sdk_ok w) in
  fst (Account.disconnect Samples.sdk_ok w) = Return tt
  /\ status (store w') = Some DISCONNECTED
  /\ prop (data (store w')) "activeKey" = VUndef
  /\ prop (data (store w')) "ledgerAccountIndex" = VStr "3"
  /\ connector (store w') = Some 0.
Proof.
  cbv zeta.
  destruct (disconnect_frame Samples.sdk_ok
              (Samples.world_of (WalletConnector (self Samples.wallet0))))
    as (H1 & H2 & H3 & H4 & H5 & H6).
  { intros r Hr. vm_compute in Hr. inversion Hr. reflexivity. }
  split; [exact H1 |].
  split; [exact H2 |].
  split; [exact H3 |].
  split; [| exact H4].
  vm_compute. reflexivity.
Defined.

Lemma actions_log_errors_on_samples :
  let w := Samples.world_of (WalletConnector (self Samples.wallet0)) in
  let failing := Samples.sdk_with Samples.create_ok Samples.address_ok
                                  Samples.signed Samples.site_fails in
  Account.setLedgerAccountIndex Samples.utils Samples.sdk_ok (Some "1") w
  = (Throw ConnectorNotLedgerError,
     MkWorld (store w) (heap w) [EvConsoleError (LogExn ConnectorNotLedgerError)])
  /\ Account.getLedgerPublicKey Samples.utils Samples.sdk_ok (Some "1") w
     = (Throw ConnectorNotLedgerError,
        MkWorld (store w) (heap w) [EvConsoleError (LogExn ConnectorNotLedgerError)])
  /\ fst (Account.disconnect failing w) = Return tt
  /\ store (snd (Account.disconnect failing w)) = store w.
Proof.
  cbv zeta.
  split; [| split].
  - apply (actions_log_errors Samples.utils Samples.sdk_ok
             (Samples.world_of (WalletConnector (self Samples.wallet0)))
             (Samples.world_of (WalletConnector (self Samples.wallet0)))
             ConnectorNotLedgerError "1").
    reflexivity.
  - apply (actions_log_errors Samples.utils Samples.sdk_ok
             (Samples.world_of (WalletConnector (self Samples.wallet0)))
             (Samples.world_of (WalletConnector (self Samples.wallet0)))
             ConnectorNotLedgerError "1").
    reflexivity.
  - destruct (proj2 (proj2 (actions_log_errors Samples.utils
                (Samples.sdk_with Samples.create_ok Samples.address_ok
                                  Samples.signed Samples.site_fails)
                (Samples.world_of (WalletConnector (self Samples.wallet0)))
                (snd (Account.disconnect_try
                        (Samples.sdk_with Samples.create_ok Samples.address_ok
                                          Samples.signed Samples.site_fails)
                        (Samples.world_of (WalletConnector (self Samples.wallet0)))))
                (SdkError "Error" "Extension context invalidated") "1"))
              eq_refl) as [Hd Hs].
    rewrite Hd. split; [reflexivity | exact Hs].
Defined.

(** C1 at a failing input: the client holds a wallet connector and the
    extension rejects [disconnectFromSite].  The two Ledger actions would
    log and rethrow; [disconnect] logs the error and completes normally,
    and the client state still shows the connection. *)
Lemma disconnect_swallows_error :
  let w := Samples.world_of (WalletConnector (self Samples.wallet0)) in
  let failing := Samples.sdk_with Samples.create_ok Samples.address_ok
                                  Samples.signed Samples.site_fails in
  let e := SdkError "Error" "Extension context invalidated" in
  fst (Account.Connector_disconnect failing 0 w) = Throw e
  /\ fst (Account.disconnect failing w) = Return tt
  /\ fst (Account.disconnect failing w) <> Throw e
  /\ hd_error (trace (snd (Account.disconnect failing w))) = Some (EvConsoleError (LogExn e))
  /\ status (store (snd (Account.disconnect failing w))) = Some (OtherStatus "connected").
Proof.
  cbv zeta. repeat split; try reflexivity. vm_compute. discriminate.
Qed.

Lemma not_ledger_error_iff_witness :
  fst (Account.getLedgerPublicKey Samples.utils Samples.sdk_ok None
         Samples.world_no_connector) = Return None
  /\ (exists msg,
        fst (Account.setLedgerAccountIndex Samples.utils Samples.sdk_ok None
               Samples.world_no_connector) = Throw (TypeError msg))
  /\ fst (Account.setLedgerAccountIndex Samples.utils Samples.sdk_ok None
            (Samples.world_of (WalletConnector (self Samples.wallet0))))
     = Throw ConnectorNotLedgerError
  /\ fst (Account.getLedgerPublicKey Samples.utils Samples.sdk_ok None
            (Samples.world_of (LedgerConnector (self Samples.ledger0))))
     <> Throw ConnectorNotLedgerError.
Proof.
  split; [| split; [| split]].
  - apply (not_ledger_error_iff Samples.utils Samples.sdk_ok None
             Samples.world_no_connector). reflexivity.
  - apply (not_ledger_error_iff Samples.utils Samples.sdk_ok None
             Samples.world_no_connector). reflexivity.
  - apply (not_ledger_error_iff Samples.utils Samples.sdk_ok None
             (Samples.world_of (WalletConnector (self Samples.wallet0)))).
    exists 0. split; [reflexivity | vm_compute; discriminate].
  - intros H.
    apply (not_ledger_error_iff Samples.utils Samples.sdk_ok None
             (Samples.world_of (LedgerConnector (self Samples.ledger0)))) in H.
    destruct H as (r & Hr & Hne). apply Hne. reflexivity.
Defined.

(** * Further properties of the connectors *)

(** ** The wallet connector *)

Section WalletFacts.
Context (sdk : Sdk).

(** X1: [isConnected] never throws: whatever the options and the extension do,
    it resolves to a boolean.  It is [false] when no provider can be had and
    when the extension rejects the question, and the extension's answer
    otherwise. *)
Theorem wallet_isConnected_never_throws (cx : Ctx Wallet.Inst) :
  (exists b, fst (Wallet.isConnected sdk cx) = Return b)
  /\ (forall e, fst (Wallet.getProvider sdk cx) = Throw e ->
                fst (Wallet.isConnected sdk cx) = Return false)
  /\ (forall p cx1 name message,
        Wallet.getProvider sdk cx = (Return p, cx1) ->
        provider_isConnected sdk p (log cx1) = Rejects name message ->
        fst (Wallet.isConnected sdk cx) = Return false)
  /\ (forall p cx1 b,
        Wallet.getProvider sdk cx = (Return p, cx1) ->
        provider_isConnected sdk p (log cx1) = Resolves b ->
        fst (Wallet.isConnected sdk cx) = Return b).
Proof.
  split; [| split; [| split]].
  - unfold Wallet.isConnected, Wallet.getProvider. unfold_monad.
    crunch; eexists; reflexivity.
  - intros e H. unfold Wallet.isConnected, try_catch, bind.
    destruct (Wallet.getProvider sdk cx) as [[p|e'] cx1]; cbn in *;
      [discriminate | reflexivity].
  - intros p cx1 name message Hp Hr.
    unfold Wallet.isConnected, try_catch, bind. rewrite Hp.
    unfold sdk_call. cbn. rewrite Hr. reflexivity.
  - intros p cx1 b Hp Hr.
    unfold Wallet.isConnected, try_catch, bind. rewrite Hp.
    unfold sdk_call. cbn. rewrite Hr. reflexivity.
Qed.

(** X2: After every wallet operation that completes normally the connector is
    ready and holds the provider that [options.getProvider] returned at the
    start of the operation. *)
Theorem wallet_ready_after_success (cx : Ctx Wallet.Inst) :
  (forall cx', Wallet.connect sdk cx = (Return tt, cx') -> wallet_ready sdk (log cx) cx')
  /\ (forall cx', Wallet.disconnect sdk cx = (Return tt, cx') ->
                  wallet_ready sdk (log cx) cx')
  /\ (forall message key r cx',
        Wallet.signMessage sdk message key cx = (Return r, cx') ->
        wallet_ready sdk (log cx) cx')
  /\ (forall deploy key r cx',
        Wallet.sign sdk deploy key cx = (Return r, cx') ->
        wallet_ready sdk (log cx) cx')
  /\ (forall r cx',
        Wallet.getActivePublicKey sdk cx = (Return r, cx') ->
        wallet_ready sdk (log cx) cx').
Proof.
  unfold wallet_ready.
  repeat split; intros;
    unfold Wallet.connect, Wallet.disconnect, Wallet.signMessage, Wallet.sign,
      Wallet.getActivePublicKey, Wallet.getProvider, Wallet.getEventProvider in *;
    unfold_monad; crunch; eauto.
Qed.

(** X3: [sign] asks the extension to sign before it looks at the outcome of
    parsing the deploy: for a deploy that does not parse, the user is
    prompted all the same, and only an answer that is not a cancellation
    makes the call fail, with the error of [unwrap]. *)
Theorem wallet_sign_prompts_before_parsing
    (deploy : Json sdk) (key msg : string) (cx cx1 : Ctx Wallet.Inst)
    (p : Provider) (res : SignatureResponse) :
  Wallet.getProvider sdk cx = (Return p, cx1) ->
  deployFromJson sdk deploy = Err msg ->
  provider_sign sdk p (JSON_stringify sdk deploy) key (log cx1) = Resolves res ->
  Wallet.sign sdk deploy key cx
  = (if cancelled res
     then Return None
     else Throw (SdkError "Error" (String.append "Tried to unwrap Error: " msg)),
     MkCtx (self cx1) (EvProviderSign key :: log cx1)).
Proof.
  intros Hp Hd Hr. unfold Wallet.sign.
  unfold bind at 1. rewrite Hp.
  unfold bind, sdk_call, ret. cbn. rewrite Hr. cbn.
  destruct (cancelled res); [reflexivity |].
  rewrite Hd. reflexivity.
Qed.

(** X4: When the extension signs, [signMessage] returns the signature it gave,
    and [sign] returns the JSON of the parsed deploy with the extension's
    signature set for the signing key; a key that is not valid hex makes
    [sign] fail with the error of [CLPublicKey.fromHex]. *)
Theorem wallet_signed_results
    (deploy : Json sdk) (message key : string) (cx cx1 : Ctx Wallet.Inst)
    (p : Provider) (res_msg res : SignatureResponse) (d : Deploy sdk) :
  Wallet.getProvider sdk cx = (Return p, cx1) ->
  provider_signMessage sdk p message key (log cx1) = Resolves res_msg ->
  cancelled res_msg = false ->
  provider_sign sdk p (JSON_stringify sdk deploy) key (log cx1) = Resolves res ->
  cancelled res = false ->
  deployFromJson sdk deploy = Ok d ->
  fst (Wallet.signMessage sdk message key cx) = Return (signatureHex res_msg)
  /\ fst (Wallet.sign sdk deploy key cx)
     = match CLPublicKey_fromHex sdk key with
       | Resolves pk =>
           Return (Some (deployToJson sdk (setSignature sdk d (signature res) pk)))
       | Rejects name m => Throw (SdkError name m)
       end.
Proof.
  intros Hp Hm Hcm Hr Hc Hd. unfold Wallet.signMessage, Wallet.sign.
  unfold bind at 1 3. rewrite Hp.
  unfold bind, sdk_call, ret, lift_answer. cbn. rewrite Hm, Hr. cbn.
  rewrite Hcm, Hc, Hd. cbn.
  split; [reflexivity |].
  destruct (CLPublicKey_fromHex sdk key); reflexivity.
Qed.

(** X5: Whatever its outcome, [connect] removes no listener; and whenever it
    got as far as [requestConnection], it had registered the four wallet
    events, once each, on the event provider of its options.  So when the
    request is rejected the four listeners stay registered. *)
Theorem wallet_connect_listeners (cx : Ctx Wallet.Inst) :
  exists delta,
    log (snd (Wallet.connect sdk cx)) = (delta ++ log cx)%list
    /\ listeners_removed delta = []
    /\ (hd_error delta = Some EvRequestConnection ->
        exists ep,
          options_getEventProvider sdk (EvOptionsGetProvider :: log cx) = Resolves (Some ep)
          /\ listeners_added delta = map (pair ep) wallet_events)
    /\ (hd_error delta <> Some EvRequestConnection ->
        listeners_added delta = []
        /\ exists e, fst (Wallet.connect sdk cx) = Throw e).
Proof.
  unfold Wallet.connect, Wallet.getProvider, Wallet.getEventProvider.
  unfold_monad. crunch.
  all: lazymatch goal with
       | |- exists delta, ?after = (delta ++ ?before)%list /\ _ =>
           let d := delta_of after before in exists d
       end.
  all: split; [reflexivity |]; split; [reflexivity |]; split; cbn.
  all: try (intros H; discriminate H).
  all: try (intros _; eexists; split; [first [eassumption | reflexivity] | reflexivity]).
  all: try (intros _; split; [reflexivity | eexists; reflexivity]).
  all: intros H; exfalso; apply H; reflexivity.
Qed.

(** X6: [disconnect] registers no listener; whenever it got as far as
    [disconnectFromSite], it had removed the four wallet events, the ones
    that [connect] registers, from the event provider of its options. *)
Theorem wallet_disconnect_listeners (cx : Ctx Wallet.Inst) :
  exists delta,
    log (snd (Wallet.disconnect sdk cx)) = (delta ++ log cx)%list
    /\ listeners_added delta = []
    /\ (hd_error delta = Some EvDisconnectFromSite ->
        exists ep,
          options_getEventProvider sdk (EvOptionsGetProvider :: log cx) = Resolves (Some ep)
          /\ listeners_removed delta = map (pair ep) wallet_events)
    /\ (hd_error delta <> Some EvDisconnectFromSite ->
        listeners_removed delta = []
        /\ exists e, fst (Wallet.disconnect sdk cx) = Throw e).
Proof.
  unfold Wallet.disconnect, Wallet.getProvider, Wallet.getEventProvider.
  unfold_monad. crunch.
  all: lazymatch goal with
       | |- exists delta, ?after = (delta ++ ?before)%list /\ _ =>
           let d := delta_of after before in exists d
       end.
  all: split; [reflexivity |]; split; [reflexivity |]; split; cbn.
  all: try (intros H; discriminate H).
  all: try (intros _; eexists; split; [first [eassumption | reflexivity] | reflexivity]).
  all: try (intros _; split; [reflexivity | eexists; reflexivity]).
  all: intros H; exfalso; apply H; reflexivity.
Qed.

End WalletFacts.

Lemma wallet_isConnected_never_throws_witness :
  let gone := Samples.sdk_with Samples.create_ok Samples.address_ok
                               Samples.signed Samples.site_ok in
  fst (Wallet.isConnected gone (MkCtx (Wallet.MkInst false None None false true) nil))
  = Return false
  /\ fst (Wallet.isConnected Samples.sdk_ok Samples.wallet0) = Return true.
Proof.
  cbv zeta. split.
  - apply (proj1 (proj2 (wallet_isConnected_never_throws
                           (Samples.sdk_with Samples.create_ok Samples.address_ok
                                             Samples.signed Samples.site_ok)
                           (MkCtx (Wallet.MkInst false None None false true) nil)))
                 ConnectorNotFoundError).
    reflexivity.
  - apply (proj2 (proj2 (proj2 (wallet_isConnected_never_throws
                                  Samples.sdk_ok Samples.wallet0)))
                 1 (MkCtx (Wallet.MkInst true (Some 1) None true true)
                          (EvOptionsGetProvider :: nil)) true);
      reflexivity.
Defined.

Lemma wallet_ready_after_success_witness :
  wallet_ready Scenarios.sdk_fine nil
    (snd (Wallet.connect Scenarios.sdk_fine Samples.wallet0))
  /\ wallet_ready Scenarios.sdk_fine nil
       (snd (Wallet.signMessage Scenarios.sdk_fine "hello" "01aa" Samples.wallet0)).
Proof.
  split.
  - apply (proj1 (wallet_ready_after_success Scenarios.sdk_fine Samples.wallet0)).
    reflexivity.
  - apply (proj1 (proj2 (proj2 (wallet_ready_after_success
                                  Scenarios.sdk_fine Samples.wallet0)))
                 "hello" "01aa" (Some "0a0b")).
    reflexivity.
Defined.

Lemma wallet_sign_prompts_before_parsing_witness :
  Wallet.sign Scenarios.sdk_bad_deploy "not a deploy" "01aa" Samples.wallet0
  = (Throw (SdkError "Error" "Tried to unwrap Error: bad deploy"),
     MkCtx (Wallet.MkInst true (Some 1) None true true)
           (EvProviderSign "01aa" :: EvOptionsGetProvider :: nil)).
Proof.
  apply (wallet_sign_prompts_before_parsing Scenarios.sdk_bad_deploy
           "not a deploy" "01aa" "bad deploy" Samples.wallet0 Scenarios.wallet1 1
           {| cancelled := false; signatureHex := Some "0a0b";
              signature := Some (x0a :: x0b :: nil) |});
    reflexivity.
Defined.

Lemma wallet_signed_results_witness :
  fst (Wallet.signMessage Scenarios.sdk_fine "hello" "01aa" Samples.wallet0)
  = Return (Some "0a0b")
  /\ fst (Wallet.sign Scenarios.sdk_fine "{deploy}" "01aa" Samples.wallet0)
     = Return (Some "{deploy}+signed").
Proof.
  apply (wallet_signed_results Scenarios.sdk_fine "{deploy}" "hello" "01aa"
           Samples.wallet0 Scenarios.wallet1 1
           {| cancelled := false; signatureHex := Some "0a0b";
              signature := Some (x0a :: x0b :: nil) |}
           {| cancelled := false; signatureHex := Some "0a0b";
              signature := Some (x0a :: x0b :: nil) |}
           "{deploy}");
    reflexivity.
Defined.

Lemma wallet_connect_listeners_witness :
  exists delta,
    log (snd (Wallet.connect Scenarios.sdk_connection_rejected Samples.wallet0))
    = (delta ++ nil)%list
    /\ fst (Wallet.connect Scenarios.sdk_connection_rejected Samples.wallet0)
       = Throw (SdkError "Error" "User rejected the connection")
    /\ listeners_added delta = map (pair 2) wallet_events
    /\ listeners_removed delta = nil.
Proof.
  destruct (wallet_connect_listeners Scenarios.sdk_connection_rejected Samples.wallet0)
    as (delta & Hlog & Hrem & Hreq & _).
  exists delta. split; [exact Hlog |]. split; [reflexivity |].
  split; [| exact Hrem].
  assert (Hd : hd_error delta = Some EvRequestConnection).
  { rewrite app_nil_r in Hlog. rewrite <- Hlog. reflexivity. }
  destruct (Hreq Hd) as (ep & Hep & Hadd).
  vm_compute in Hep. inversion Hep; subst ep. exact Hadd.
Defined.

Lemma wallet_disconnect_listeners_witness :
  exists delta,
    log (snd (Wallet.disconnect Scenarios.sdk_fine Samples.wallet0))
    = (delta ++ nil)%list
    /\ listeners_removed delta = map (pair 2) wallet_events
    /\ listeners_added delta = nil.
Proof.
  destruct (wallet_disconnect_listeners Scenarios.sdk_fine Samples.wallet0)
    as (delta & Hlog & Hadd & Hreq & _).
  exists delta. split; [exact Hlog |]. split; [| exact Hadd].
  assert (Hd : hd_error delta = Some EvDisconnectFromSite).
  { rewrite app_nil_r in Hlog. rewrite <- Hlog. reflexivity. }
  destruct (Hreq Hd) as (ep & Hep & Hrem).
  vm_compute in Hep. inversion Hep; subst ep. exact Hrem.
Defined.

(** ** The Ledger connector *)

Section LedgerMore.
Context (utils : Utils) (sdk : Sdk).


(** X8: Once the transport is open, [getPublicKey] closes it exactly once, as
    its last call, whatever the device answers and whether or not the call
    succeeds. *)
Theorem getPublicKey_closes_transport
    (index : string) (cx : Ctx Ledger.Inst) (t : Transport) :
  TransportWebUSB_create sdk (log cx) = Resolves t ->
  transport_on sdk t "disconnect" (EvTransportCreate :: log cx) = Resolves tt ->
  exists delta,
    log (snd (Ledger.getPublicKey utils sdk index cx)) = (delta ++ log cx)%list
    /\ hd_error delta = Some EvTransportClose
    /\ calls CallTransportClose delta = 1.
Proof.
  intros Hc Hon.
  unfold Ledger.getPublicKey, Ledger.getProvider, Ledger.connect, Ledger.close_transport.
  unfold_monad. rewrite Hc. cbn. rewrite Hon. cbn.
  crunch.
  all: lazymatch goal with
       | |- exists delta, ?after = (delta ++ ?before)%list /\ _ =>
           let d := delta_of after before in exists d
       end.
  all: split; [reflexivity |]; split; [reflexivity | vm_compute; reflexivity].
Qed.

(** X10: The index that [signMessage] and [sign] use is the one stored by
    [setAccountIndex] when there is a non-empty one; the index passed in
    the options counts only otherwise.  With the transport open,
    [signMessage] asks the device at that path for the bytes of
    ['Casper Message:\n'] followed by the message, and [sign] for the bytes
    of the parsed deploy. *)
Theorem ledger_signs_at_stored_index
    (message key target : string) (index : option string) (deploy : Json sdk)
    (d : Deploy sdk) (cx : Ctx Ledger.Inst) (t : Transport) (i : string) :
  TransportWebUSB_create sdk (log cx) = Resolves t ->
  transport_on sdk t "disconnect" (EvTransportCreate :: log cx) = Resolves tt ->
  deployFromJson sdk deploy = Ok d ->
  i <> "" ->
  In (EvAppSignMessage (signing_path utils (self cx) index)
        (Buffer_from_utf8 (String.append Ledger.ledgerPrefix message)))
     (log (snd (Ledger.signMessage utils sdk message key index cx)))
  /\ In (EvAppSign (signing_path utils (self cx) index) (deployToBytes sdk d))
        (log (snd (Ledger.sign utils sdk deploy key target index cx)))
  /\ signing_path utils (Ledger.set_accountIndex i (self cx)) index
     = getLedgerPath utils i
  /\ (truthy_str (Ledger.accountIndex (self cx)) = false ->
      signing_path utils (self cx) index = getLedgerPath utils (default "0" index)).
Proof.
  intros Hc Hon Hd Hi. unfold signing_path.
  split; [| split; [| split]].
  - unfold Ledger.signMessage, Ledger.getProvider, Ledger.connect, Ledger.close_transport.
    unfold_monad. rewrite Hc. cbn. rewrite Hon. cbn.
    crunch; cbn; auto 6.
  - unfold Ledger.sign, Ledger.getProvider, Ledger.connect, Ledger.close_transport.
    unfold_monad. rewrite Hc. cbn. rewrite Hon. cbn. rewrite Hd. cbn.
    crunch; cbn; auto 6.
  - cbn. destruct i; [congruence | reflexivity].
  - intros Hf. destruct (Ledger.accountIndex (self cx)) as [[|a s]|];
      cbn in *; try discriminate; reflexivity.
Qed.

(** X11: When the device call itself rejects, [signMessage] and [sign] pass the
    library's error on as it is (not through [getLedgerError]) and do not
    close the transport they opened. *)
Theorem ledger_device_rejection
    (message key target name msg : string) (index : option string)
    (deploy : Json sdk) (d : Deploy sdk) (cx : Ctx Ledger.Inst) (t : Transport) :
  let path := signing_path utils (self cx) index in
  let payload := Buffer_from_utf8 (String.append Ledger.ledgerPrefix message) in
  TransportWebUSB_create sdk (log cx) = Resolves t ->
  transport_on sdk t "disconnect" (EvTransportCreate :: log cx) = Resolves tt ->
  app_signMessage sdk (NewCasperApp t) path payload (asked_at cx) = Rejects name msg ->
  deployFromJson sdk deploy = Ok d ->
  app_sign sdk (NewCasperApp t) path (deployToBytes sdk d) (asked_at cx) = Rejects name msg ->
  Ledger.signMessage utils sdk message key index cx
  = (Throw (SdkError name msg),
     MkCtx (connected_with t (self cx)) (EvAppSignMessage path payload :: asked_at cx))
  /\ Ledger.sign utils sdk deploy key target index cx
     = (Throw (SdkError name msg),
        MkCtx (connected_with t (self cx))
              (EvAppSign path (deployToBytes sdk d) :: asked_at cx)).
Proof.
  cbv zeta. unfold signing_path, asked_at, connected_with.
  intros Hc Hon Hm Hd Hs. split.
  - unfold Ledger.signMessage, Ledger.getProvider, Ledger.connect, Ledger.close_transport.
    unfold_monad. rewrite Hc. cbn. rewrite Hon. cbn. rewrite Hm. reflexivity.
  - unfold Ledger.sign, Ledger.getProvider, Ledger.connect, Ledger.close_transport.
    unfold_monad. rewrite Hc. cbn. rewrite Hon. cbn. rewrite Hd. cbn.
    rewrite Hs. reflexivity.
Qed.

(** X12: A deploy that does not parse makes [sign] fail after the transport is
    opened and before the device is asked; the transport is left open. *)
Theorem ledger_sign_unparsable_deploy
    (key target msg : string) (index : option string)
    (deploy : Json sdk) (cx : Ctx Ledger.Inst) (t : Transport) :
  TransportWebUSB_create sdk (log cx) = Resolves t ->
  transport_on sdk t "disconnect" (EvTransportCreate :: log cx) = Resolves tt ->
  deployFromJson sdk deploy = Err msg ->
  Ledger.sign utils sdk deploy key target index cx
  = (Throw (SdkError "Error" (String.append "Tried to unwrap Error: " msg)),
     MkCtx (connected_with t (self cx)) (asked_at cx)).
Proof.
  unfold asked_at, connected_with. intros Hc Hon Hd.
  unfold Ledger.sign, Ledger.getProvider, Ledger.connect, Ledger.close_transport.
  unfold_monad. rewrite Hc. cbn. rewrite Hon. cbn. rewrite Hd. reflexivity.
Qed.

(** X13: When the device answers without a signature, [sign] writes the
    device's error message to the console, closes the transport, and
    throws an [Error] whose message is [getLedgerError] of that message and
    of the return code. *)
Theorem ledger_sign_refused
    (key target : string) (index : option string)
    (deploy : Json sdk) (d : Deploy sdk) (cx : Ctx Ledger.Inst) (t : Transport)
    (r : ResponseSign) :
  let path := signing_path utils (self cx) index in
  let asked := EvAppSign path (deployToBytes sdk d) :: asked_at cx in
  TransportWebUSB_create sdk (log cx) = Resolves t ->
  transport_on sdk t "disconnect" (EvTransportCreate :: log cx) = Resolves tt ->
  deployFromJson sdk deploy = Ok d ->
  app_sign sdk (NewCasperApp t) path (deployToBytes sdk d) (asked_at cx) = Resolves r ->
  signatureRS r = None ->
  transport_close sdk t (EvConsoleError (LogStr (errorMessage r)) :: asked) = Resolves tt ->
  Ledger.sign utils sdk deploy key target index cx
  = (Throw (Error (getLedgerError utils (Literal "" (errorMessage r))
                                  (Some (returnCode r)))),
     MkCtx (connected_with t (self cx))
           (EvTransportClose :: EvConsoleError (LogStr (errorMessage r)) :: asked)).
Proof.
  cbv zeta. unfold signing_path, asked_at, connected_with.
  intros Hc Hon Hd Hs Hrs Hcl.
  unfold Ledger.sign, Ledger.getProvider, Ledger.connect, Ledger.close_transport.
  unfold_monad. rewrite Hc. cbn. rewrite Hon. cbn. rewrite Hd. cbn.
  rewrite Hs. cbn. rewrite Hrs. cbn. rewrite Hcl. reflexivity.
Qed.

(** X14: A deploy returned by [sign] is the JSON of the validated deploy that
    carries the device's signature for the given key: the deploy parsed,
    the device signed its bytes at the signing path, the key was valid hex,
    validation passed, and the transport was closed last. *)
Theorem ledger_sign_returns
    (key target : string) (index : option string) (deploy j : Json sdk)
    (cx cx' : Ctx Ledger.Inst) :
  Ledger.sign utils sdk deploy key target index cx = (Return j, cx') ->
  exists t d r rs pk val,
    TransportWebUSB_create sdk (log cx) = Resolves t
    /\ deployFromJson sdk deploy = Ok d
    /\ app_sign sdk (NewCasperApp t) (signing_path utils (self cx) index)
         (deployToBytes sdk d) (asked_at cx) = Resolves r
    /\ signatureRS r = Some rs
    /\ CLPublicKey_fromHex sdk key = Resolves pk
    /\ validateDeploy sdk (setSignature sdk d (Some rs) pk) = Ok val
    /\ j = deployToJson sdk val
    /\ hd_error (log cx') = Some EvTransportClose.
Proof.
  unfold signing_path, asked_at.
  unfold Ledger.sign, Ledger.getProvider, Ledger.connect, Ledger.close_transport.
  unfold_monad. intros H. crunch.
  eexists _, _, _, _, _, _. repeat split; eauto.
Qed.

(** X15: A string returned by [signMessage] is the hex encoding of the
    [signatureRSV] bytes that the device gave for the prefixed message at
    the signing path, and the transport was closed last. *)
Theorem ledger_signMessage_returns
    (message key s : string) (index : option string) (cx cx' : Ctx Ledger.Inst) :
  Ledger.signMessage utils sdk message key index cx = (Return s, cx') ->
  exists t r rsv,
    TransportWebUSB_create sdk (log cx) = Resolves t
    /\ app_signMessage sdk (NewCasperApp t) (signing_path utils (self cx) index)
         (Buffer_from_utf8 (String.append Ledger.ledgerPrefix message)) (asked_at cx)
       = Resolves (Some r)
    /\ signatureRSV r = Some rsv
    /\ s = toString_hex rsv
    /\ hd_error (log cx') = Some EvTransportClose.
Proof.
  unfold signing_path, asked_at.
  unfold Ledger.signMessage, Ledger.getProvider, Ledger.connect, Ledger.close_transport.
  unfold_monad. intros H. crunch.
  eexists _, _, _. repeat split; eauto.
Qed.

(** X16: [isConnected] of the Ledger connector never resolves to [false]: with
    a non-empty algorithm prefix it resolves to [true] or it throws. *)
Theorem ledger_isConnected_true_or_throws (cx : Ctx Ledger.Inst) (b : bool) :
  SECP256K1 utils <> "" ->
  fst (Ledger.isConnected utils sdk cx) = Return b ->
  b = true.
Proof.
  intros Hne. unfold Ledger.isConnected, Ledger.getActivePublicKey.
  unfold bind at 1. unfold bind at 1. unfold this at 1. cbn.
  destruct (Ledger.getPublicKey utils sdk _ cx) as [[key|e] cx'] eqn:E; cbn;
    [| discriminate].
  intros H. inversion H; subst b.
  destruct (getPublicKey_returns utils sdk _ key cx cx' E)
    as (t & value & pk & _ & _ & _ & Hkey).
  subst key. destruct (SECP256K1 utils); [congruence | reflexivity].
Qed.

End LedgerMore.


Lemma getPublicKey_closes_transport_witness :
  exists delta,
    log (snd (Ledger.getPublicKey Samples.utils Scenarios.sdk_fine "0" Samples.ledger0))
    = (delta ++ nil)%list
    /\ hd_error delta = Some EvTransportClose
    /\ calls CallTransportClose delta = 1.
Proof.
  apply (getPublicKey_closes_transport Samples.utils Scenarios.sdk_fine "0"
           Samples.ledger0 7); reflexivity.
Defined.

Lemma ledger_signs_at_stored_index_witness :
  In (EvAppSignMessage "m/44'/506'/0'/0/4"
        (Buffer_from_utf8 (String.append Ledger.ledgerPrefix "hello")))
     (log (snd (Ledger.signMessage Samples.utils Scenarios.sdk_fine "hello" "" (Some "9")
                  Scenarios.ledger4)))
  /\ In (EvAppSign "m/44'/506'/0'/0/4" (list_byte_of_string "{deploy}"))
        (log (snd (Ledger.sign Samples.utils Scenarios.sdk_fine "{deploy}" "01aa" ""
                     (Some "9") Scenarios.ledger4))).
Proof.
  destruct (ledger_signs_at_stored_index Samples.utils Scenarios.sdk_fine
              "hello" "" "" (Some "9") "{deploy}" "{deploy}" Scenarios.ledger4 7 "4")
    as (Hm & Hs & _ & _); try reflexivity; try discriminate.
  split; [exact Hm | exact Hs].
Defined.

Lemma ledger_device_rejection_witness :
  Ledger.signMessage Samples.utils Scenarios.sdk_unplugged "hello" "" None Samples.ledger0
  = (Throw (SdkError "DisconnectedDevice" "The device was disconnected"),
     MkCtx (connected_with 7 (Ledger.new true))
           (EvAppSignMessage "m/44'/506'/0'/0/0"
              (Buffer_from_utf8 (String.append Ledger.ledgerPrefix "hello"))
            :: asked_at Samples.ledger0))
  /\ fst (Ledger.sign Samples.utils Scenarios.sdk_unplugged "{deploy}" "01aa" "" None
            Samples.ledger0)
     = Throw (SdkError "DisconnectedDevice" "The device was disconnected").
Proof.
  destruct (ledger_device_rejection Samples.utils Scenarios.sdk_unplugged
              "hello" "01aa" "" "DisconnectedDevice" "The device was disconnected"
              None "{deploy}" "{deploy}" Samples.ledger0 7)
    as (Hm & Hs); try reflexivity.
  split; [exact Hm | rewrite Hs; reflexivity].
Defined.

Lemma ledger_sign_unparsable_deploy_witness :
  Ledger.sign Samples.utils Scenarios.sdk_bad_deploy "not a deploy" "01aa" "" None
    Samples.ledger0
  = (Throw (SdkError "Error" "Tried to unwrap Error: bad deploy"),
     MkCtx (connected_with 7 (Ledger.new true)) (asked_at Samples.ledger0)).
Proof.
  apply (ledger_sign_unparsable_deploy Samples.utils Scenarios.sdk_bad_deploy
           "01aa" "" "bad deploy" None "not a deploy" Samples.ledger0 7);
    reflexivity.
Defined.

Lemma ledger_sign_refused_witness :
  let sdk := Scenarios.sdk_full Scenarios.parse_ok Scenarios.hex_ok Scenarios.request_ok
               Samples.create_ok Samples.address_ok Scenarios.app_msg_ok
               Scenarios.app_sig_refused Samples.signed in
  fst (Ledger.sign Samples.utils sdk "{deploy}" "01aa" "" None Samples.ledger0)
  = Throw (Error "Transaction rejected")
  /\ hd_error (log (snd (Ledger.sign Samples.utils sdk "{deploy}" "01aa" "" None
                          Samples.ledger0)))
     = Some EvTransportClose.
Proof.
  cbv zeta.
  rewrite (ledger_sign_refused Samples.utils
             (Scenarios.sdk_full Scenarios.parse_ok Scenarios.hex_ok Scenarios.request_ok
                Samples.create_ok Samples.address_ok Scenarios.app_msg_ok
                Scenarios.app_sig_refused Samples.signed)
             "01aa" "" None "{deploy}" "{deploy}" Samples.ledger0 7
             Scenarios.sign_refused eq_refl eq_refl eq_refl eq_refl eq_refl eq_refl).
  split; reflexivity.
Defined.

Lemma ledger_sign_returns_witness :
  exists t d r rs pk val,
    TransportWebUSB_create Scenarios.sdk_fine nil = Resolves t
    /\ deployFromJson Scenarios.sdk_fine "{deploy}" = Ok d
    /\ app_sign Scenarios.sdk_fine (NewCasperApp t)
         (signing_path Samples.utils (Ledger.new true) None)
         (deployToBytes Scenarios.sdk_fine d) (asked_at Samples.ledger0) = Resolves r
    /\ signatureRS r = Some rs
    /\ CLPublicKey_fromHex Scenarios.sdk_fine "01aa" = Resolves pk
    /\ validateDeploy Scenarios.sdk_fine (setSignature Scenarios.sdk_fine d (Some rs) pk)
       = Ok val
    /\ "{deploy}+signed" = deployToJson Scenarios.sdk_fine val
    /\ hd_error (log (snd (Ledger.sign Samples.utils Scenarios.sdk_fine "{deploy}"
                             "01aa" "" None Samples.ledger0)))
       = Some EvTransportClose.
Proof.
  apply (ledger_sign_returns Samples.utils Scenarios.sdk_fine "01aa" "" None
           "{deploy}" "{deploy}+signed" Samples.ledger0
           (snd (Ledger.sign Samples.utils Scenarios.sdk_fine "{deploy}" "01aa" ""
                   None Samples.ledger0))).
  reflexivity.
Defined.

Lemma ledger_signMessage_returns_witness :
  exists t r rsv,
    TransportWebUSB_create Scenarios.sdk_fine nil = Resolves t
    /\ app_signMessage Scenarios.sdk_fine (NewCasperApp t)
         (signing_path Samples.utils (Ledger.new true) None)
         (Buffer_from_utf8 (String.append Ledger.ledgerPrefix "hello"))
         (asked_at Samples.ledger0)
       = Resolves (Some r)
    /\ signatureRSV r = Some rsv
    /\ "01021b" = toString_hex rsv
    /\ hd_error (log (snd (Ledger.signMessage Samples.utils Scenarios.sdk_fine "hello" ""
                             None Samples.ledger0)))
       = Some EvTransportClose.
Proof.
  apply (ledger_signMessage_returns Samples.utils Scenarios.sdk_fine "hello" ""
           "01021b" None Samples.ledger0
           (snd (Ledger.signMessage Samples.utils Scenarios.sdk_fine "hello" ""
                   None Samples.ledger0))).
  reflexivity.
Defined.

Lemma ledger_isConnected_true_or_throws_witness :
  SECP256K1 Samples.utils <> ""
  /\ fst (Ledger.isConnected Samples.utils Scenarios.sdk_fine Samples.ledger0)
     = Return true.
Proof.
  split; [discriminate |].
  destruct (fst (Ledger.isConnected Samples.utils Scenarios.sdk_fine Samples.ledger0))
    as [b|e] eqn:E; [| vm_compute in E; discriminate].
  rewrite (ledger_isConnected_true_or_throws Samples.utils Scenarios.sdk_fine
             Samples.ledger0 b); [reflexivity | discriminate | exact E].
Defined.

(** ** The account actions *)

Section ActionsMore.
Context (utils : Utils) (sdk : Sdk).

Lemma heap_set_same (r : Ref) (o : ConnObj) (h : Ref -> ConnObj) :
  heap_set r o h r = o.
Proof. unfold heap_set. rewrite Nat.eqb_refl. reflexivity. Qed.

Lemma heap_set_other (r r' : Ref) (o : ConnObj) (h : Ref -> ConnObj) :
  r' <> r -> heap_set r o h r' = h r'.
Proof.
  intros Hne. unfold heap_set.
  destruct (Nat.eqb_spec r' r); [contradiction | reflexivity].
Qed.

(** A method of the Ledger connector run through the client: on a Ledger
    object it runs on the instance and the log, and writes both back. *)
Lemma on_ledger_run {A} (r : Ref) (name : string) (m : M (Ctx Ledger.Inst) A)
    (w : World) (i : Ledger.Inst) :
  heap w r = LedgerConnector i ->
  on_ledger r name m w
  = (fst (m (MkCtx i (trace w))),
     MkWorld (store w)
             (heap_set r (LedgerConnector (self (snd (m (MkCtx i (trace w)))))) (heap w))
             (log (snd (m (MkCtx i (trace w)))))).
Proof.
  intros H. unfold on_ledger. rewrite H.
  destruct (m (MkCtx i (trace w))) as [c cx]. reflexivity.
Qed.

(** On an object of another class the method is missing: a [TypeError],
    and nothing changes. *)
Lemma on_ledger_missing {A} (r : Ref) (name : string) (m : M (Ctx Ledger.Inst) A)
    (w : World) :
  (forall i, heap w r <> LedgerConnector i) ->
  on_ledger r name m w = (Throw (TypeError (String.append name " is not a function")), w).
Proof.
  intros H. unfold on_ledger.
  destruct (heap w r) as [i| |]; [destruct (H i); reflexivity | reflexivity | reflexivity].
Qed.

Lemma same_account_indices_refl (w : World) (s : StateParams) (t : Trace) :
  same_account_indices w (MkWorld s (heap w) t).
Proof.
  intros r. cbn. destruct (heap w r); eauto.
Qed.

Lemma on_ledger_getPublicKey_indices (r : Ref) (index : string) (w : World) :
  same_account_indices w
    (snd (on_ledger r "connector.getPublicKey" (Ledger.getPublicKey utils sdk index) w)).
Proof.
  destruct (heap w r) as [i|i|id] eqn:Hr.
  - rewrite (on_ledger_run r _ _ w i Hr). cbn.
    intros r'. cbn. destruct (Nat.eq_dec r' r) as [-> | Hne].
    + rewrite Hr, heap_set_same. eexists. split; [reflexivity |].
      apply (getPublicKey_stores_only_handles utils sdk index (MkCtx i (trace w))).
    + rewrite heap_set_other by exact Hne. destruct (heap w r'); eauto.
  - rewrite on_ledger_missing by (intros i0; congruence).
    intros r'. cbn. destruct (heap w r'); eauto.
  - rewrite on_ledger_missing by (intros i0; congruence).
    intros r'. cbn. destruct (heap w r'); eauto.
Qed.

(** The [try] block of [setLedgerAccountIndex] when the client's connector
    is a Ledger object. *)
Lemma setLedgerAccountIndex_try_ledger (index : string) (w : World) (r : Ref)
    (i : Ledger.Inst) :
  connector (store w) = Some r ->
  heap w r = LedgerConnector i ->
  Account.setLedgerAccountIndex_try utils sdk index w
  = match Ledger.getPublicKey utils sdk index (MkCtx i (trace w)) with
    | (Return key, cx') =>
        (Return tt,
         MkWorld (Account.ledger_updater index key (store w))
                 (heap_set r (LedgerConnector (Ledger.set_accountIndex index (self cx')))
                    (heap_set r (LedgerConnector (self cx')) (heap w)))
                 (log cx'))
    | (Throw e, cx') =>
        (Throw e,
         MkWorld (store w) (heap_set r (LedgerConnector (self cx')) (heap w)) (log cx'))
    end.
Proof.
  intros Hc Hr.
  unfold Account.setLedgerAccountIndex_try, Account.require_ledger, client_connector,
    read_id, setState.
  unfold bind, ret, throw. rewrite Hc. rewrite Hr. cbn.
  unfold on_ledger at 1. rewrite Hr.
  destruct (Ledger.getPublicKey utils sdk index (MkCtx i (trace w))) as [[key|e] cx'];
    [| reflexivity].
  unfold on_ledger. cbn. rewrite heap_set_same. reflexivity.
Qed.

(** The [try] block when the client's connector is of another class, or
    when there is none: it throws and changes nothing. *)
Lemma setLedgerAccountIndex_try_other (index : string) (w : World) :
  (forall r i, connector (store w) = Some r -> heap w r <> LedgerConnector i) ->
  exists e, Account.setLedgerAccountIndex_try utils sdk index w = (Throw e, w).
Proof.
  intros Hnot.
  unfold Account.setLedgerAccountIndex_try, Account.require_ledger, client_connector,
    read_id, setState.
  unfold bind, ret, throw.
  destruct (connector (store w)) as [r|] eqn:Hc; cbn; [| eexists; reflexivity].
  destruct (negb _); [eexists; reflexivity |].
  rewrite on_ledger_missing by (intros i; apply Hnot; reflexivity).
  eexists; reflexivity.
Qed.

(** X17: A successful [setLedgerAccountIndex] ran on a Ledger connector whose
    [getPublicKey] returned a key for the index.  It writes the index and
    the key into [data] (and nothing else into the client state), stores
    the index on the connector, and leaves the other objects alone; the
    connector then reports the index, or ['0'] when the index is empty. *)
Theorem setLedgerAccountIndex_success (index : option string) (w w' : World) :
  Account.setLedgerAccountIndex utils sdk index w = (Return tt, w') ->
  exists r i key cx',
    connector (store w) = Some r
    /\ heap w r = LedgerConnector i
    /\ Ledger.getPublicKey utils sdk (default "0" index) (MkCtx i (trace w))
       = (Return key, cx')
    /\ store w' = Account.ledger_updater (default "0" index) key (store w)
    /\ prop (data (store w')) "activeKey" = VStr key
    /\ prop (data (store w')) "ledgerAccountIndex" = VStr (default "0" index)
    /\ heap w' r
       = LedgerConnector (Ledger.set_accountIndex (default "0" index) (self cx'))
    /\ (forall r', r' <> r -> heap w' r' = heap w r')
    /\ trace w' = log cx'
    /\ fst (on_ledger r "connector.getAccountIndex" Ledger.getAccountIndex w')
       = Return (Some (or_str (Some (default "0" index)) "0")).
Proof.
  unfold Account.setLedgerAccountIndex, try_catch.
  set (ix := default "0" index). intros H.
  destruct (connector (store w)) as [r|] eqn:Hc.
  - destruct (heap w r) as [i|i|id] eqn:Hr.
    + rewrite (setLedgerAccountIndex_try_ledger ix w r i Hc Hr) in H.
      destruct (Ledger.getPublicKey utils sdk ix (MkCtx i (trace w)))
        as [[key|e] cx'] eqn:Hk; [| discriminate].
      inversion H; subst w'; clear H.
      exists r, i, key, cx'. cbn.
      repeat split; try reflexivity; try assumption.
      * rewrite lookup_insert_eq. reflexivity.
      * rewrite lookup_insert_ne by discriminate.
        rewrite lookup_insert_eq. reflexivity.
      * apply heap_set_same.
      * intros r' Hne. rewrite !heap_set_other by exact Hne. reflexivity.
      * unfold on_ledger. cbn. rewrite heap_set_same. reflexivity.
    + destruct (setLedgerAccountIndex_try_other ix w) as [e He].
      { intros r0 i0 Hr0. rewrite Hc in Hr0. inversion Hr0; subst r0. congruence. }
      rewrite He in H. discriminate.
    + destruct (setLedgerAccountIndex_try_other ix w) as [e He].
      { intros r0 i0 Hr0. rewrite Hc in Hr0. inversion Hr0; subst r0. congruence. }
      rewrite He in H. discriminate.
  - destruct (setLedgerAccountIndex_try_other ix w) as [e He].
    { intros r0 i0 Hr0. rewrite Hc in Hr0. discriminate. }
    rewrite He in H. discriminate.
Qed.

(** X18: A failed [setLedgerAccountIndex] changes neither the client state nor
    the account index stored on any connector, and its last effect is the
    console line for the error it throws. *)
Theorem setLedgerAccountIndex_failure (index : option string) (w w' : World) (e : Exn) :
  Account.setLedgerAccountIndex utils sdk index w = (Throw e, w') ->
  store w' = store w
  /\ same_account_indices w w'
  /\ hd_error (trace w') = Some (EvConsoleError (LogExn e)).
Proof.
  unfold Account.setLedgerAccountIndex, try_catch.
  set (ix := default "0" index). intros H.
  assert (Hother :
    (forall r i, connector (store w) = Some r -> heap w r <> LedgerConnector i) ->
    store w' = store w /\ same_account_indices w w'
    /\ hd_error (trace w') = Some (EvConsoleError (LogExn e))).
  { intros Hnot. destruct (setLedgerAccountIndex_try_other ix w Hnot) as [e' He].
    rewrite He in H. cbn in H. inversion H; subst. cbn.
    repeat split. apply same_account_indices_refl. }
  destruct (connector (store w)) as [r|] eqn:Hc;
    [| apply Hother; intros; discriminate].
  destruct (heap w r) as [i|i|id] eqn:Hr;
    [| apply Hother; intros r0 i0 Hr0; inversion Hr0; subst r0; congruence
     | apply Hother; intros r0 i0 Hr0; inversion Hr0; subst r0; congruence].
  clear Hother.
  rewrite (setLedgerAccountIndex_try_ledger ix w r i Hc Hr) in H.
  pose proof (on_ledger_getPublicKey_indices r ix w) as Hidx.
  rewrite (on_ledger_run r _ _ w i Hr) in Hidx. cbn in Hidx.
  destruct (Ledger.getPublicKey utils sdk ix (MkCtx i (trace w)))
    as [[key|e'] cx'] eqn:Hk; [discriminate |].
  cbn in H. inversion H; subst. cbn in *.
  repeat split. exact Hidx.
Qed.

(** X19: [getLedgerPublicKey] only reads: whatever its outcome, the client
    state and the account index stored on every connector are as before.
    It resolves to [undefined] exactly when the client has no connector,
    and a key it returns is the one [getPublicKey] of the client's Ledger
    connector returned for the index. *)
Theorem getLedgerPublicKey_reads_only (index : option string) (w : World) :
  store (snd (Account.getLedgerPublicKey utils sdk index w)) = store w
  /\ same_account_indices w (snd (Account.getLedgerPublicKey utils sdk index w))
  /\ (fst (Account.getLedgerPublicKey utils sdk index w) = Return None
      <-> connector (store w) = None)
  /\ (forall key,
        fst (Account.getLedgerPublicKey utils sdk index w) = Return (Some key) ->
        exists r i,
          connector (store w) = Some r
          /\ heap w r = LedgerConnector i
          /\ fst (Ledger.getPublicKey utils sdk (default "0" index) (MkCtx i (trace w)))
             = Return key).
Proof.
  unfold Account.getLedgerPublicKey, Account.getLedgerPublicKey_try,
    Account.require_ledger, client_connector, read_id, try_catch.
  set (ix := default "0" index).
  unfold bind, ret, throw, console_error, emit. cbn.
  destruct (connector (store w)) as [r|] eqn:Hc; cbn.
  - destruct (negb _) eqn:Hid; cbn.
    + repeat split; try apply same_account_indices_refl; try discriminate.
    + pose proof (on_ledger_store r "connector.getPublicKey"
                    (Ledger.getPublicKey utils sdk ix) w) as Hs.
      pose proof (on_ledger_getPublicKey_indices r ix w) as Hi.
      destruct (heap w r) as [i|i|id] eqn:Hr.
      * rewrite (on_ledger_run r _ _ w i Hr) in *. cbn in *.
        destruct (Ledger.getPublicKey utils sdk ix (MkCtx i (trace w)))
          as [[key|e] cx'] eqn:Hk; cbn in *.
        -- repeat split; try exact Hi; try discriminate.
           intros key' Hkey. inversion Hkey; subst key'.
           exists r, i. split; [reflexivity |]. split; [exact Hr |].
           rewrite Hk. reflexivity.
        -- repeat split; try exact Hi; discriminate.
      * rewrite on_ledger_missing by (intros i0; congruence). cbn.
        repeat split; try apply same_account_indices_refl; try discriminate.
      * rewrite on_ledger_missing by (intros i0; congruence). cbn.
        repeat split; try apply same_account_indices_refl; try discriminate.
  - repeat split; try discriminate.
    intros r0. destruct (heap w r0); eauto.
Qed.

(** X20: Disconnecting while the client's connector is a Ledger object touches
    no library and cannot fail: the action completes, the log and the
    objects are as before, and the client state is the disconnected one. *)
Theorem disconnect_ledger_is_local (w : World) (r : Ref) (i : Ledger.Inst) :
  connector (store w) = Some r ->
  heap w r = LedgerConnector i ->
  fst (Account.disconnect sdk w) = Return tt
  /\ trace (snd (Account.disconnect sdk w)) = trace w
  /\ store (snd (Account.disconnect sdk w)) = Account.disconnect_updater (store w)
  /\ forall r', heap (snd (Account.disconnect sdk w)) r' = heap w r'.
Proof.
  intros Hc Hr.
  unfold Account.disconnect, try_catch. rewrite disconnect_try_eq. rewrite Hc.
  unfold Account.Connector_disconnect. rewrite Hr.
  rewrite (on_ledger_run r _ _ w i Hr). cbn.
  repeat split. intros r'. destruct (Nat.eq_dec r' r) as [-> | Hne].
  - rewrite heap_set_same. symmetry. exact Hr.
  - apply heap_set_other. exact Hne.
Qed.

(** The connector methods that the actions call write nothing to the
    console. *)
Lemma getPublicKey_console (index : string) (cx : Ctx Ledger.Inst) :
  console_lines (log (snd (Ledger.getPublicKey utils sdk index cx)))
  = console_lines (log cx).
Proof.
  unfold Ledger.getPublicKey, Ledger.getProvider, Ledger.connect, Ledger.close_transport.
  unfold_monad. crunch; reflexivity.
Qed.

Lemma wallet_disconnect_console (cx : Ctx Wallet.Inst) :
  console_lines (log (snd (Wallet.disconnect sdk cx))) = console_lines (log cx).
Proof.
  unfold Wallet.disconnect, Wallet.getProvider, Wallet.getEventProvider.
  unfold_monad. crunch; reflexivity.
Qed.

Lemma on_ledger_console {A} (r : Ref) (name : string) (m : M (Ctx Ledger.Inst) A)
    (w : World) :
  (forall cx, console_lines (log (snd (m cx))) = console_lines (log cx)) ->
  console_lines (trace (snd (on_ledger r name m w))) = console_lines (trace w).
Proof.
  intros H. unfold on_ledger. destruct (heap w r); try reflexivity.
  specialize (H (MkCtx i (trace w))). destruct (m _); exact H.
Qed.

Lemma on_wallet_console {A} (r : Ref) (m : M (Ctx Wallet.Inst) A) (w : World) :
  (forall cx, console_lines (log (snd (m cx))) = console_lines (log cx)) ->
  console_lines (trace (snd (on_wallet r m w))) = console_lines (trace w).
Proof.
  intros H. unfold on_wallet. destruct (heap w r); try reflexivity.
  specialize (H (MkCtx i (trace w))). destruct (m _); exact H.
Qed.

Lemma setLedgerAccountIndex_try_console (index : string) (w : World) :
  console_lines (trace (snd (Account.setLedgerAccountIndex_try utils sdk index w)))
  = console_lines (trace w).
Proof.
  assert (Hother :
    (forall r i, connector (store w) = Some r -> heap w r <> LedgerConnector i) ->
    console_lines (trace (snd (Account.setLedgerAccountIndex_try utils sdk index w)))
    = console_lines (trace w)).
  { intros Hnot. destruct (setLedgerAccountIndex_try_other index w Hnot) as [e He].
    rewrite He. reflexivity. }
  destruct (connector (store w)) as [r|] eqn:Hc;
    [| apply Hother; intros; discriminate].
  destruct (heap w r) as [i|i|id] eqn:Hr;
    [| apply Hother; intros r0 i0 Hr0; inversion Hr0; subst r0; congruence
     | apply Hother; intros r0 i0 Hr0; inversion Hr0; subst r0; congruence].
  rewrite (setLedgerAccountIndex_try_ledger index w r i Hc Hr).
  pose proof (getPublicKey_console index (MkCtx i (trace w))) as Hk.
  destruct (Ledger.getPublicKey utils sdk index (MkCtx i (trace w))) as [[key|e] cx'];
    exact Hk.
Qed.

Lemma getLedgerPublicKey_try_console (index : string) (w : World) :
  console_lines (trace (snd (Account.getLedgerPublicKey_try utils sdk index w)))
  = console_lines (trace w).
Proof.
  unfold Account.getLedgerPublicKey_try, Account.require_ledger, client_connector, read_id.
  unfold bind, ret, throw. cbn.
  destruct (connector (store w)) as [r|]; cbn; [| reflexivity].
  destruct (negb _); cbn; [reflexivity |].
  pose proof (on_ledger_console r "connector.getPublicKey"
                (Ledger.getPublicKey utils sdk index) w (getPublicKey_console index)) as H.
  destruct (on_ledger r "connector.getPublicKey" _ w) as [[key|e] w1]; exact H.
Qed.

Lemma disconnect_try_console (w : World) :
  console_lines (trace (snd (Account.disconnect_try sdk w))) = console_lines (trace w).
Proof.
  rewrite disconnect_try_eq.
  destruct (connector (store w)) as [r|]; [| reflexivity].
  assert (H : console_lines (trace (snd (Account.Connector_disconnect sdk r w)))
              = console_lines (trace w)).
  { unfold Account.Connector_disconnect. destruct (heap w r) eqn:Hr.
    - apply on_ledger_console. reflexivity.
    - apply on_wallet_console. apply wallet_disconnect_console.
    - reflexivity. }
  destruct (Account.Connector_disconnect sdk r w) as [[u|e] w1]; exact H.
Qed.

(** X21: Each action writes to the console exactly when its [try] block throws,
    and then exactly one line; an action whose [try] block completes writes
    nothing. *)
Theorem actions_log_once (index : option string) (w : World) :
  console_lines (trace (snd (Account.setLedgerAccountIndex utils sdk index w)))
  = console_lines (trace w)
    + one_if_thrown (fst (Account.setLedgerAccountIndex utils sdk index w))
  /\ console_lines (trace (snd (Account.getLedgerPublicKey utils sdk index w)))
     = console_lines (trace w)
       + one_if_thrown (fst (Account.getLedgerPublicKey utils sdk index w))
  /\ console_lines (trace (snd (Account.disconnect sdk w)))
     = console_lines (trace w) + one_if_thrown (fst (Account.disconnect_try sdk w)).
Proof.
  unfold one_if_thrown.
  pose proof (setLedgerAccountIndex_try_console (default "0" index) w) as H1.
  pose proof (getLedgerPublicKey_try_console (default "0" index) w) as H2.
  pose proof (disconnect_try_console w) as H3.
  unfold Account.setLedgerAccountIndex, Account.getLedgerPublicKey, Account.disconnect,
    try_catch, bind, console_error, emit, throw.
  destruct (Account.setLedgerAccountIndex_try utils sdk _ w) as [[u1|e1] w1];
  destruct (Account.getLedgerPublicKey_try utils sdk _ w) as [[u2|e2] w2];
  destruct (Account.disconnect_try sdk w) as [[u3|e3] w3];
  cbn in *; unfold console_lines in *; cbn; repeat split; lia.
Qed.

End ActionsMore.

Lemma setLedgerAccountIndex_success_witness :
  let w := Samples.world_of (LedgerConnector (Ledger.new true)) in
  let w' := snd (Account.setLedgerAccountIndex Samples.utils Scenarios.sdk_fine
                   (Some "2") w) in
  prop (data (store w')) "activeKey" = VStr "0203a10f"
  /\ prop (data (store w')) "ledgerAccountIndex" = VStr "2"
  /\ fst (on_ledger 0 "connector.getAccountIndex" Ledger.getAccountIndex w')
     = Return (Some "2").
Proof.
  cbv zeta.
  destruct (setLedgerAccountIndex_success Samples.utils Scenarios.sdk_fine (Some "2")
              (Samples.world_of (LedgerConnector (Ledger.new true)))
              (snd (Account.setLedgerAccountIndex Samples.utils Scenarios.sdk_fine
                      (Some "2") (Samples.world_of (LedgerConnector (Ledger.new true)))))
              eq_refl)
    as (r & i & key & cx' & Hc & Hr & Hk & Hs & Hkey & Hidx & Hh & Ho & Ht & Hget).
  vm_compute in Hc. inversion Hc; subst r.
  vm_compute in Hr. inversion Hr; subst i.
  vm_compute in Hk. inversion Hk; subst key cx'.
  split; [exact Hkey |]. split; [exact Hidx | exact Hget].
Defined.

Lemma setLedgerAccountIndex_failure_witness :
  let sdk := Samples.sdk_with Samples.create_denied Samples.address_ok
                              Samples.signed Samples.site_ok in
  let w := Samples.world_of (LedgerConnector (Ledger.new true)) in
  let w' := snd (Account.setLedgerAccountIndex Samples.utils sdk (Some "2") w) in
  store w' = store w
  /\ same_account_indices w w'
  /\ hd_error (trace w')
     = Some (EvConsoleError (LogExn (Error "Access denied to use Ledger device"))).
Proof.
  cbv zeta.
  apply (setLedgerAccountIndex_failure Samples.utils
           (Samples.sdk_with Samples.create_denied Samples.address_ok
                             Samples.signed Samples.site_ok)
           (Some "2")
           (Samples.world_of (LedgerConnector (Ledger.new true)))).
  reflexivity.
Defined.

Lemma getLedgerPublicKey_reads_only_witness :
  fst (Account.getLedgerPublicKey Samples.utils Scenarios.sdk_fine None
         Samples.world_no_connector) = Return None
  /\ exists r i,
       connector (store (Samples.world_of (LedgerConnector (Ledger.new true)))) = Some r
       /\ heap (Samples.world_of (LedgerConnector (Ledger.new true))) r
          = LedgerConnector i
       /\ fst (Ledger.getPublicKey Samples.utils Scenarios.sdk_fine (default "0" (Some "2"))
                 (MkCtx i (trace (Samples.world_of (LedgerConnector (Ledger.new true))))))
          = Return "0203a10f".
Proof.
  split.
  - apply (getLedgerPublicKey_reads_only Samples.utils Scenarios.sdk_fine None
             Samples.world_no_connector).
    reflexivity.
  - apply (getLedgerPublicKey_reads_only Samples.utils Scenarios.sdk_fine (Some "2")
             (Samples.world_of (LedgerConnector (Ledger.new true)))).
    reflexivity.
Defined.

Lemma disconnect_ledger_is_local_witness :
  let w := Samples.world_of (LedgerConnector (Ledger.new true)) in
  fst (Account.disconnect Scenarios.sdk_unplugged w) = Return tt
  /\ trace (snd (Account.disconnect Scenarios.sdk_unplugged w)) = nil
  /\ status (store (snd (Account.disconnect Scenarios.sdk_unplugged w)))
     = Some DISCONNECTED.
Proof.
  cbv zeta.
  destruct (disconnect_ledger_is_local Scenarios.sdk_unplugged
              (Samples.world_of (LedgerConnector (Ledger.new true))) 0 (Ledger.new true)
              eq_refl eq_refl)
    as (Hf & Ht & Hs & _).
  split; [exact Hf |]. split; [exact Ht |]. rewrite Hs. reflexivity.
Defined.

(** ** Device errors in [getPublicKey] *)

(** X9: When the device reports an error message other than ['No errors'], or
    when the call to the device rejects, [getPublicKey] closes the
    transport and throws a plain [Error] whose message is [getLedgerError]
    of the failure; a key sent along with a reported error is ignored. *)
Theorem getPublicKey_device_error
    (utils : Utils) (sdk : Sdk) (index : string) (cx : Ctx Ledger.Inst)
    (t : Transport) :
  let path := getLedgerPath utils index in
  let asked := EvGetAddressAndPubKey path :: asked_at cx in
  TransportWebUSB_create sdk (log cx) = Resolves t ->
  transport_on sdk t "disconnect" (EvTransportCreate :: log cx) = Resolves tt ->
  transport_close sdk t asked = Resolves tt ->
  (forall value msg,
     getAddressAndPubKey sdk (NewCasperApp t) path (asked_at cx) = Resolves value ->
     ra_errorMessage value = Some msg ->
     msg <> "" ->
     msg <> "No errors" ->
     Ledger.getPublicKey utils sdk index cx
     = (Throw (Error (getLedgerError utils (Caught (Error msg)) None)),
        MkCtx (connected_with t (self cx)) (EvTransportClose :: asked)))
  /\ (forall name msg,
        getAddressAndPubKey sdk (NewCasperApp t) path (asked_at cx) = Rejects name msg ->
        Ledger.getPublicKey utils sdk index cx
        = (Throw (Error (getLedgerError utils (Caught (SdkError name msg)) None)),
           MkCtx (connected_with t (self cx)) (EvTransportClose :: asked))).
Proof.
  cbv zeta. unfold asked_at, connected_with. intros Hc Hon Hcl. split.
  - intros value msg Hv Hm Hne Hno.
    unfold Ledger.getPublicKey, Ledger.getProvider, Ledger.connect, Ledger.close_transport.
    assert (Heqb : String.eqb msg "No errors" = false)
      by (apply String.eqb_neq; exact Hno).
    unfold_monad. rewrite Hc. cbn. rewrite Hon. cbn. rewrite Hv. cbn. rewrite Hm.
    cbv beta iota. rewrite Heqb.
    destruct msg as [|a m]; [congruence |]. cbn.
    rewrite Hcl. reflexivity.
  - intros name msg Hv.
    unfold Ledger.getPublicKey, Ledger.getProvider, Ledger.connect, Ledger.close_transport.
    unfold_monad. rewrite Hc. cbn. rewrite Hon. cbn. rewrite Hv. cbn.
    rewrite Hcl. reflexivity.
Qed.

Lemma getPublicKey_device_error_witness :
  let locked : Oracle ResponseAddress := fun _ =>
    Resolves {| publicKey := None; ra_errorMessage := Some "Device is locked";
                ra_returnCode := 21781 |} in
  let sdk := Samples.sdk_with Samples.create_ok locked Samples.signed Samples.site_ok in
  Ledger.getPublicKey Samples.utils sdk "0" Samples.ledger0
  = (Throw (Error "Device is locked"),
     MkCtx (connected_with 7 (Ledger.new true))
           (EvTransportClose :: EvGetAddressAndPubKey "m/44'/506'/0'/0/0"
            :: asked_at Samples.ledger0)).
Proof.
  cbv zeta.
  apply (proj1 (getPublicKey_device_error Samples.utils
                  (Samples.sdk_with Samples.create_ok
                     (fun _ => Resolves {| publicKey := None;
                                           ra_errorMessage := Some "Device is locked";
                                           ra_returnCode := 21781 |})
                     Samples.signed Samples.site_ok)
                  "0" Samples.ledger0 7 eq_refl eq_refl eq_refl)
               {| publicKey := None; ra_errorMessage := Some "Device is locked";
                  ra_returnCode := 21781 |}
               "Device is locked");
    try reflexivity; discriminate.
Defined.
